(** * Meeting summarizer: action-item parsing, temporary-file cleanup,
      document assembly and the Slack notifier

    A shallow embedding of the processing logic of [app.py] and [slack.py].
    Python [str] values are sequences of Unicode code points; calls into
    external services (the generative model, the media library, the HTTP
    client, the clock) are answered by an explicit oracle, and the effects
    of each function (files created and removed, requests sent, document
    elements appended) are threaded through a small state-and-exception
    monad.

    The records the program logs (to the console and to [app.log]) are not
    part of the model, and neither is what a library may write on disk
    besides the files named here: what is stated about files is stated
    about the temporary files of a run. *)

From Stdlib Require Import NArith ZArith Lia Ascii String DecimalString Sorted.
From stdpp Require Import gmap strings list.

Local Open Scope N_scope.

(** ** Python strings *)

Module PyStr.

(** A Python [str]: a sequence of code points. *)
Definition str := list N.

(** An ASCII literal as a [str]. *)
Definition py (s : string) : str :=
  map N_of_ascii (list_ascii_of_string s).

Definition LF : N := 10.
Definition SPACE : N := 32.
Definition ASTERISK : N := 42.
Definition HYPHEN : N := 45.
(** U+2022, the bullet character. *)
Definition BULLET : N := 8226.

(** [str.isspace] on one code point: the code points CPython's
    [_PyUnicode_IsWhitespace] accepts. *)
Definition isspace (c : N) : bool :=
  ((9 <=? c) && (c <=? 13))
  || ((28 <=? c) && (c <=? 32))
  || (c =? 133) || (c =? 160) || (c =? 5760)
  || ((8192 <=? c) && (c <=? 8202))
  || (c =? 8232) || (c =? 8233) || (c =? 8239) || (c =? 8287)
  || (c =? 12288).

(** [s.lstrip()], [s.rstrip()] and [s.strip()] without argument. *)
Fixpoint lstrip (s : str) : str :=
  match s with
  | c :: s' => if isspace c then lstrip s' else s
  | [] => []
  end.

Definition rstrip (s : str) : str := rev (lstrip (rev s)).

Definition strip (s : str) : str := rstrip (lstrip s).

(** Empty or made of whitespace only. *)
Definition whitespace_only (s : str) : bool := forallb isspace s.

(** [s.lstrip(chars)]: drops the leading code points that occur in
    [chars]. *)
Fixpoint lstrip_chars (chars : list N) (s : str) : str :=
  match s with
  | c :: s' => if existsb (N.eqb c) chars then lstrip_chars chars s' else s
  | [] => []
  end.

(** [s.split(sep)] for a one-character separator: never returns the empty
    list, [''.split(sep)] is [['']]. *)
Fixpoint split (sep : N) (s : str) : list str :=
  match s with
  | [] => [[]]
  | c :: s' =>
      if c =? sep then [] :: split sep s'
      else match split sep s' with
           | piece :: pieces => (c :: piece) :: pieces
           | [] => [[c]]
           end
  end.

(** [sep.join(pieces)]. *)
Fixpoint join (sep : str) (pieces : list str) : str :=
  match pieces with
  | [] => []
  | [p] => p
  | p :: ps => p ++ sep ++ join sep ps
  end.

(** [s.startswith(prefix)]. *)
Fixpoint startswith (s prefix : str) : bool :=
  match prefix, s with
  | [], _ => true
  | p :: prefix', c :: s' => (c =? p) && startswith s' prefix'
  | _ :: _, [] => false
  end.

(** Truth value of a [str]: non-empty. *)
Definition truthy (s : str) : bool :=
  match s with [] => false | _ :: _ => true end.

(** [str.lower] on one code point.  The ASCII and Latin-1 capitals are
    mapped, and so are the three code points outside ASCII whose lowercase
    has an ASCII letter in it: U+0130 (two code points, [i] and U+0307),
    U+212A KELVIN SIGN ([k]) and U+212B ANGSTROM SIGN (U+00E5).  Capitals of
    the other scripts are left as they are: their lowercase forms lie
    outside ASCII as well, so a comparison of the result with an ASCII
    literal, the only use the program makes of [lower], does not see the
    difference. *)
Definition lower_char (c : N) : list N :=
  if (65 <=? c) && (c <=? 90) then [c + 32]
  else if (192 <=? c) && (c <=? 222) && negb (c =? 215) then [c + 32]
  else if c =? 304 then [105; 775]
  else if c =? 8490 then [107]
  else if c =? 8491 then [229]
  else [c].

Definition lower (s : str) : str := flat_map lower_char s.

End PyStr.

Import PyStr.

(** ** Action-item parsing ([generate_summary_and_actions], the loop after
       the two generation calls) *)

Module ActionItems.

(** One iteration of the loop over the lines of the response: the body of
    [for line in action_text.split('\n')], with [action_items] the list
    collected so far. *)
Definition parse_line (action_items : list str) (line : str) : list str :=
  let line := strip line in
  if truthy line
     && (startswith line [HYPHEN] || startswith line [BULLET]
         || startswith line [ASTERISK])
  then action_items ++ [line]
  else if truthy line
          && (length action_items =? 0)%nat
          && negb (startswith (lower line) (py "no"))
  then action_items ++ [py "- " ++ line]
  else action_items.

(** The parser applied to [action_response.text]: the text is stripped,
    split at line feeds, and the loop runs from the empty list. *)
Definition parse_action_items (text : str) : list str :=
  let action_text := strip text in
  fold_left parse_line (split LF action_text) [].

(** [len(l) == 0]. *)
Definition is_nil {A} (l : list A) : bool :=
  match l with [] => true | _ :: _ => false end.

(** *** The rule as the specification words it *)

Definition bullet_glyphs : list N := [HYPHEN; BULLET; ASTERISK].

Definition begins_with_glyph (line : str) : bool :=
  match line with
  | c :: _ => existsb (N.eqb c) bullet_glyphs
  | [] => false
  end.

(** The line begins with the two letters n, o in either case. *)
Definition begins_with_no (line : str) : bool :=
  match line with
  | a :: b :: _ => ((a =? 110) || (a =? 78)) && ((b =? 111) || (b =? 79))
  | _ => false
  end.

(** A code point that continues a word: an ASCII letter, digit or
    underscore. *)
Definition word_char (c : N) : bool :=
  ((48 <=? c) && (c <=? 57)) || ((65 <=? c) && (c <=? 90))
  || (c =? 95) || ((97 <=? c) && (c <=? 122)).

(** The line begins with the word "no" in either case: the two letters,
    and the word ends there. *)
Definition begins_with_word_no (line : str) : bool :=
  begins_with_no line
  && match drop 2 line with
     | c :: _ => negb (word_char c)
     | [] => true
     end.

(** What happens to one trimmed line: [Some item] when an item is kept,
    [None] when the line is dropped.  [is_no] is the test for a line that
    begins with "no"; [none_yet] tells whether no item has been collected
    yet. *)
Definition line_rule (is_no : str -> bool) (none_yet : bool) (line : str)
  : option str :=
  if negb (truthy line) then None
  else if begins_with_glyph line then Some line
  else if none_yet && negb (is_no line) then Some (py "- " ++ line)
  else None.

(** The lines handled in order by [line_rule]. *)
Fixpoint items_by_rule (is_no : str -> bool) (none_yet : bool)
    (lines : list str) : list str :=
  match lines with
  | [] => []
  | line :: rest =>
      match line_rule is_no none_yet line with
      | Some item => item :: items_by_rule is_no false rest
      | None => items_by_rule is_no none_yet rest
      end
  end.

(** The trimmed lines of a response. *)
Definition trimmed_lines (text : str) : list str :=
  map strip (split LF (strip text)).

(** An item comes from a trimmed line: the line itself, which starts with a
    glyph, or the line with ["- "] in front. *)
Definition item_of_line (lines : list str) (item : str) : Prop :=
  begins_with_glyph item = true
  /\ (In item lines \/ exists line, In line lines /\ item = py "- " ++ line).

End ActionItems.

Import ActionItems.

(** ** Effects: exceptions and threaded state *)

Module Effects.

(** The exceptions the program raises or receives from its libraries, all
    of them subclasses of Python's [Exception].  (Signals that derive from
    [BaseException] only, such as a keyboard interrupt, are not outcomes of
    a call and are outside the model.) *)
Inductive exn : Type :=
| Exception (msg : string)          (* [raise Exception(msg)] *)
| UnboundLocalError (name : string) (* a local read before assignment *)
| Timeout                           (* [requests.exceptions.Timeout] *)
| ConnectionError                   (* [requests.exceptions.ConnectionError] *)
| LibraryError (msg : string).      (* any other exception of a library *)

Inductive outcome (A : Type) : Type :=
| Return (a : A)
| Raise (e : exn).
Arguments Return {A} a.
Arguments Raise {A} e.

(** A computation over a state [S] that returns or raises. *)
Definition M (S A : Type) : Type := S -> outcome A * S.

Definition ret {S A} (a : A) : M S A := fun s => (Return a, s).

Definition raise {S A} (e : exn) : M S A := fun s => (Raise e, s).

Definition bind {S A B} (m : M S A) (k : A -> M S B) : M S B :=
  fun s =>
    match m s with
    | (Return a, s') => k a s'
    | (Raise e, s') => (Raise e, s')
    end.

(** [try: m  except Exception as e: handler e]. *)
Definition try_except {S A} (m : M S A) (handler : exn -> M S A) : M S A :=
  fun s =>
    match m s with
    | (Return a, s') => (Return a, s')
    | (Raise e, s') => handler e s'
    end.

(** The outcome of an external call, lifted without touching the state. *)
Definition lift {S A} (o : outcome A) : M S A := fun s => (o, s).

Definition get {S} : M S S := fun s => (Return s, s).

Definition modify {S} (f : S -> S) : M S unit := fun s => (Return tt, f s).

(** [for x in xs: body x]. *)
Fixpoint for_each {S A} (xs : list A) (body : A -> M S unit) : M S unit :=
  match xs with
  | [] => ret tt
  | x :: xs' => bind (body x) (fun _ => for_each xs' body)
  end.

Declare Scope py_scope.
Delimit Scope py_scope with py.
Notation "x <- m ;; k" := (bind m (fun x => k))
  (at level 100, m at next level, right associativity) : py_scope.
Notation "m ;; k" := (bind m (fun _ => k))
  (at level 100, right associativity) : py_scope.

End Effects.

Import Effects.
Local Open Scope py_scope.

(** ** The summarizer ([MeetingSummarizer.generate_summary_and_actions]) *)

Module Summarizer.

(** A prompt template of [config.py]: literal text with [{transcript}]
    fields.  The wording of the prompts is configuration and is kept
    abstract. *)
Inductive piece : Type :=
| Lit (text : str)
| TranscriptField.

Definition template := list piece.

(** [template.format(transcript=transcript)]. *)
Definition format (t : template) (transcript : str) : str :=
  flat_map (fun p => match p with Lit text => text | TranscriptField => transcript end) t.

Record prompt_pair : Type := {
  summary_template : template;
  actions_template : template
}.

Record config : Type := {
  SUMMARIZATION_PROMPT : template;
  ACTION_ITEMS_PROMPT : template;
  MEETING_TYPE_PROMPTS : gmap string prompt_pair
}.

(** The remote model: the answer to the [n]-th generation request of the
    run with the given prompt is the text of the response, or an
    exception. *)
Definition model := nat -> str -> outcome str.

(** [self.gemini_model.generate_content(prompt)] followed by [.text]; the
    state is the list of prompts sent so far. *)
Definition generate_content (gemini : model) (prompt : str) : M (list str) str :=
  fun sent => (gemini (length sent) prompt, sent ++ [prompt]).

Definition generate_summary_and_actions (cfg : config) (gemini : model)
    (transcript : str) (meeting_type : string)
  : M (list str) (str * list str) :=
  try_except
    (if negb (truthy (strip transcript))
     then raise (Exception "Transcript is empty")
     else
       let '(summary_prompt, action_prompt) :=
         match MEETING_TYPE_PROMPTS cfg !! meeting_type with
         | Some prompts =>
             (format (summary_template prompts) transcript,
              format (actions_template prompts) transcript)
         | None =>
             (format (SUMMARIZATION_PROMPT cfg) transcript,
              format (ACTION_ITEMS_PROMPT cfg) transcript)
         end in
       summary_text <- generate_content gemini summary_prompt ;;
       let summary := strip summary_text in
       action_text <- generate_content gemini action_prompt ;;
       let action_items := parse_action_items action_text in
       ret (summary, action_items))
    (fun e => raise e).

End Summarizer.

(** ** The audio pipeline ([MeetingSummarizer.extract_audio_from_video]) *)

Module Audio.

(** The state of a call: the files that exist, with their contents, and the
    two locals the exception handler reads, unbound ([None]) until their
    assignment has run.  Removing a file follows POSIX: [os.unlink] of an
    existing file succeeds, also while the clip is still open. *)
Record frame : Type := {
  fs : gmap string (list N);
  tmp_video_path : option string;
  tmp_audio_path : option string
}.

Definition enter (files : gmap string (list N)) : frame :=
  {| fs := files; tmp_video_path := None; tmp_audio_path := None |}.

(** What the environment answers during one call. *)
Record media : Type := {
  (** [tempfile.NamedTemporaryFile(delete=False, suffix='.mp4')]: the name
      of the file it creates *)
  new_video_tmp : outcome string;
  (** [video_file.read()] *)
  upload : outcome (list N);
  (** [tempfile.NamedTemporaryFile(delete=False, suffix='.wav')] *)
  new_audio_tmp : outcome string;
  (** [VideoFileClip(tmp_video_path)]: the clip's [audio], [None] when the
      clip has no audio stream, else what [write_audiofile] renders *)
  open_clip : outcome (option (outcome (list N)))
}.

Definition write_file (p : string) (data : list N) : M frame unit :=
  modify (fun f =>
    {| fs := <[p := data]> (fs f);
       tmp_video_path := tmp_video_path f;
       tmp_audio_path := tmp_audio_path f |}).

Definition unlink (p : string) : M frame unit :=
  modify (fun f =>
    {| fs := delete p (fs f);
       tmp_video_path := tmp_video_path f;
       tmp_audio_path := tmp_audio_path f |}).

Definition exists_ (f : frame) (p : string) : bool :=
  match fs f !! p with Some _ => true | None => false end.

Definition getsize (f : frame) (p : string) : nat :=
  match fs f !! p with Some data => length data | None => 0%nat end.

(** The temporary file is created empty under the name the environment
    chose. *)
Definition NamedTemporaryFile (name : outcome string) : M frame string :=
  p <- lift name ;;
  write_file p [] ;;
  ret p.

Definition set_tmp_video_path (p : string) : M frame unit :=
  modify (fun f =>
    {| fs := fs f; tmp_video_path := Some p;
       tmp_audio_path := tmp_audio_path f |}).

Definition set_tmp_audio_path (p : string) : M frame unit :=
  modify (fun f =>
    {| fs := fs f; tmp_video_path := tmp_video_path f;
       tmp_audio_path := Some p |}).

(** The handler's loop.  The list display reads both locals and raises
    when one is unbound; inside the loop ['path' in locals()] holds, [path]
    being the loop variable. *)
Definition cleanup : M frame unit :=
  f <- get ;;
  match tmp_video_path f, tmp_audio_path f with
  | Some v, Some a =>
      for_each [v; a] (fun path =>
        f' <- get ;;
        if exists_ f' path then unlink path else ret tt)
  | None, _ => raise (UnboundLocalError "tmp_video_path")
  | Some _, None => raise (UnboundLocalError "tmp_audio_path")
  end.

Definition extract_audio_from_video (w : media) : M frame (string * string) :=
  try_except
    (v <- NamedTemporaryFile (new_video_tmp w) ;;
     data <- lift (upload w) ;;
     write_file v data ;;
     set_tmp_video_path v ;;
     a <- NamedTemporaryFile (new_audio_tmp w) ;;
     set_tmp_audio_path a ;;
     audio <- lift (open_clip w) ;;
     match audio with
     | None => raise (Exception "No audio track found in video file")
     | Some track =>
         rendered <- lift track ;;
         write_file a rendered ;;
         f <- get ;;
         if negb (exists_ f a) || (getsize f a =? 0)%nat
         then raise (Exception "Failed to extract audio from video")
         else ret (v, a)
     end)
    (fun e => cleanup ;; raise e).

End Audio.

(** ** The document assembler ([MeetingSummarizer.create_docx]) *)

Module Docx.

(** The body of a [python-docx] document as the calls build it. *)
Inductive element : Type :=
| Heading (text : str) (level : nat)
| Paragraph (text : str) (style : option string).

(** A code point that can stand in the text of an XML element.  The
    library turns tab, line feed and carriage return into elements of
    their own and hands the rest to [lxml], which refuses the other
    control characters below U+0020, U+FFFE and U+FFFF; a surrogate does
    not get past the UTF-8 encoder. *)
Definition xml_char (c : N) : bool :=
  ((c =? 9) || (c =? 10) || (c =? 13) || (32 <=? c))
  && negb ((55296 <=? c) && (c <=? 57343))
  && negb ((c =? 65534) || (c =? 65535)).

Definition xml_compatible (text : str) : bool := forallb xml_char text.

(** What a text that is not XML compatible raises: the [ValueError] of
    [lxml] ("All strings must be XML compatible ..."), or for a surrogate
    the [UnicodeEncodeError] of the encoder, a [ValueError] as well. *)
Definition XML_ERROR : exn := LibraryError "ValueError".

(** [doc.add_heading(text, level)] and [doc.add_paragraph(text, style)]
    append to the body, or raise when the text is not XML compatible. *)
Definition add_heading (text : str) (level : nat) : M (list element) unit :=
  if xml_compatible text
  then modify (fun doc => doc ++ [Heading text level])
  else raise XML_ERROR.

Definition add_paragraph (text : str) (style : option string)
  : M (list element) unit :=
  if xml_compatible text
  then modify (fun doc => doc ++ [Paragraph text style])
  else raise XML_ERROR.

(** U+2500, the box-drawing horizontal line. *)
Definition RULE : N := 9472.

(** [now] is [datetime.now().strftime('%Y-%m-%d %H:%M:%S')].  The result is
    the document body that [doc.save] serialises into the buffer, or the
    exception that the [except] clause raises again. *)
Definition create_docx (now : str) (transcript summary : str)
    (action_items : list str) : outcome (list element) :=
  let run :=
    try_except
      (add_heading (py "Meeting Summary Report") 0 ;;
       add_paragraph (py "Generated: " ++ now) None ;;
       add_paragraph (repeat RULE 50) None ;;
       add_heading (py "Executive Summary") 1 ;;
       add_paragraph summary None ;;
       (match action_items with
        | _ :: _ =>
            add_heading (py "Action Items") 1 ;;
            for_each action_items (fun item =>
              add_paragraph item (Some "List Bullet"))
        | [] => ret tt
        end) ;;
       add_heading (py "Full Transcript") 1 ;;
       add_paragraph transcript None)
      (fun e => raise e) in
  match run [] with
  | (Return _, doc) => Return doc
  | (Raise e, _) => Raise e
  end.

End Docx.

(** ** The webhook notifier ([slack.py]) *)

Module Slack.

Inductive block : Type :=
| Header (text : str)
| Divider
| Section (text : str)
| Context (text : str).

Record request : Type := {
  url : str;
  json : list block;
  timeout : N;
  headers : list (string * string)
}.

Record response : Type := {
  status_code : Z;
  text : str
}.

(** [requests.post]: the answer to the [n]-th request of the run is a
    response or an exception. *)
Definition http := nat -> request -> outcome response.

(** The state is the list of requests sent so far. *)
Definition post (net : http) (rq : request) : M (list request) response :=
  fun sent => (net (length sent) rq, sent ++ [rq]).

Definition WEBHOOK_PREFIX : str := py "https://hooks.slack.com/".

(** [now_header] is [datetime.now().strftime('%B %d, %Y at %I:%M %p')] and
    [now_footer] is [datetime.now().strftime('%Y-%m-%d %H:%M:%S')]. *)
Definition send_to_slack (now_header now_footer : str) (net : http)
    (summary action_items webhook_url : str) : M (list request) bool :=
  try_except
    (if negb (truthy webhook_url) || negb (startswith webhook_url WEBHOOK_PREFIX)
     then ret false
     else if negb (truthy (strip summary)) && negb (truthy (strip action_items))
     then ret false
     else
       let formatted_action_items :=
         if truthy (strip action_items) then
           let items :=
             map strip
               (List.filter (fun item => truthy (strip item))
                  (split LF action_items)) in
           join [LF]
             (map (fun item =>
                     [BULLET; SPACE]
                     ++ lstrip_chars [HYPHEN; SPACE; BULLET; ASTERISK] item)
                items)
         else [] in
       let blocks :=
         [ Header ([128221] ++ py " Meeting Summary - " ++ now_header);
           Divider;
           Section (py "*" ++ [128203] ++ py " Summary:*" ++ [LF] ++ summary) ] in
       let blocks :=
         if truthy formatted_action_items
         then blocks ++ [Section (py "*" ++ [9989] ++ py " Action Items:*"
                                  ++ [LF] ++ formatted_action_items)]
         else blocks in
       let blocks :=
         blocks ++ [Divider;
                    Context (py "Generated by Meeting Summarizer | "
                             ++ now_footer)] in
       response <- post net {| url := webhook_url;
                               json := blocks;
                               timeout := 30;
                               headers := [("Content-Type", "application/json")] |} ;;
       if (status_code response =? 200)%Z then ret true else ret false)
    (fun e =>
       match e with
       | Timeout => ret false
       | ConnectionError => ret false
       | _ => ret false
       end).

Definition validate_webhook_url (webhook_url : str) : bool :=
  if negb (truthy webhook_url) then false
  else startswith webhook_url WEBHOOK_PREFIX
       && (50 <? length webhook_url)%nat.

(** The send operation as the specification words its validation: a URL is
    accepted when it has the prefix and more than 50 characters. *)
Definition url_accepted_by_spec (webhook_url : str) : bool :=
  startswith webhook_url WEBHOOK_PREFIX && (50 <? length webhook_url)%nat.

End Slack.

(** ** The connectivity probe ([slack.py], [test_slack_connection]) *)

Module Probe.

(** The probe posts a one-field payload, [{"text": ...}]. *)
Record request : Type := {
  url : str;
  json_text : str;
  timeout : N;
  headers : list (string * string)
}.

Definition http := nat -> request -> outcome Slack.response.

Definition post (net : http) (rq : request) : M (list request) Slack.response :=
  fun sent => (net (length sent) rq, sent ++ [rq]).

(** [str(n)] for an integer: its decimal digits, with a minus sign in
    front of a negative number. *)
Definition str_of_int (n : Z) : str :=
  py (DecimalString.NilZero.string_of_int (Z.to_int n)).

Definition TEST_TEXT : str :=
  [129514]
  ++ py " Test message from Meeting Summarizer - connection successful!".

(** [describe e] is [str(e)], the text the library gave the exception. *)
Definition test_slack_connection (describe : exn -> str) (net : http)
    (webhook_url : str) : M (list request) (bool * str) :=
  try_except
    (if negb (Slack.validate_webhook_url webhook_url)
     then ret (false, py "Invalid webhook URL format")
     else
       response <- post net {| url := webhook_url;
                               json_text := TEST_TEXT;
                               timeout := 10;
                               headers := [("Content-Type", "application/json")] |} ;;
       if (Slack.status_code response =? 200)%Z
       then ret (true, py "Connection successful")
       else ret (false,
                 py "HTTP " ++ str_of_int (Slack.status_code response)
                 ++ py ": " ++ Slack.text response))
    (fun e => ret (false, py "Connection failed: " ++ describe e)).

End Probe.

(** ** Control: a view of a larger state, and [finally] *)

Module Control.

(** Runs a computation over a part of the state. *)
Definition zoom {S T A} (view : S -> T) (update : T -> S -> S) (m : M T A)
  : M S A :=
  fun s => let '(r, t) := m (view s) in (r, update t s).

(** [try: m  finally: final].  The final block always runs; when it raises,
    its exception replaces the outcome of [m]. *)
Definition try_finally {S A} (m : M S A) (final : M S unit) : M S A :=
  fun s =>
    let '(r, s') := m s in
    match final s' with
    | (Return _, s'') => (r, s'')
    | (Raise e, s'') => (Raise e, s'')
    end.

End Control.

Import Control.

(** ** Transcription ([MeetingSummarizer.transcribe_audio]) *)

Module Transcription.

(** [librosa.load(audio_path, sr=16000, mono=True)] followed by
    [self.stt_model.transcribe(audio_array)] and [result["text"]]: from the
    contents of the file to the text, or an exception. *)
Definition recogniser := list N -> outcome str.

Definition exists_ (files : gmap string (list N)) (p : string) : bool :=
  match files !! p with Some _ => true | None => false end.

Definition getsize (files : gmap string (list N)) (p : string) : nat :=
  match files !! p with Some data => length data | None => 0%nat end.

(** The state is the files and the list of the paths recognised so far.
    The pause of one second before the file is loaded changes nothing in
    it and is left out. *)
Definition recognise (speech : recogniser) (audio_path : string)
  : M (gmap string (list N) * list string) str :=
  fun s =>
    (speech (default [] (fst s !! audio_path)), (fst s, snd s ++ [audio_path])).

Definition transcribe_audio (speech : recogniser) (audio_path : string)
  : M (gmap string (list N) * list string) str :=
  try_except
    (s <- get ;;
     if negb (exists_ (fst s) audio_path)
     then raise (Exception "Audio file not found")
     else if (getsize (fst s) audio_path =? 0)%nat
     then raise (Exception "Audio file is empty")
     else
       text <- recognise speech audio_path ;;
       let transcript := strip text in
       if negb (truthy transcript)
       then raise (Exception "No speech detected in audio")
       else ret transcript)
    (fun e => raise e).

End Transcription.

(** ** Messages and limits of [config.py] *)

Module Config.

Definition MAX_FILE_SIZE_MB : N := 100.

(** [ERROR_MESSAGES["file_too_large"].format(max_size=max_size)]. *)
Definition file_too_large (max_size : N) : str :=
  py "File size exceeds " ++ Probe.str_of_int (Z.of_N max_size)
  ++ py "MB limit. Please compress your file or use a shorter recording.".

Definition slack_error : str :=
  py "Failed to send message to Slack. Please check your webhook URL configuration.".

Definition empty_transcript : str :=
  py "No meaningful content found in the transcript. Please provide a longer recording or text.".

(** The success messages begin with the code points the file has in the
    place of their emoji. *)
Definition processing_complete : str :=
  [8218; 250; 214] ++ py " Your meeting has been successfully processed!".

Definition slack_sent : str :=
  [63743; 252; 236; 177] ++ py " Summary sent to Slack successfully!".

Definition file_uploaded : str :=
  [63743; 252; 236; 197] ++ py " File uploaded successfully!".

(** [UI_CONFIG["max_transcript_display"]]. *)
Definition max_transcript_display : nat := 1000.

End Config.

(** ** The application ([app.py], the functions around the summarizer) *)

Module App.

(** What the page shows, in order. *)
Inductive event : Type :=
| ShowProgress (percent : N)     (* [st.progress], [progress_bar.progress] *)
| ClearProgress                  (* [progress_bar.empty()] *)
| ShowStatus (text : str)        (* [status_text.text] *)
| ClearStatus                    (* [status_text.empty()] *)
| Pause (seconds : N)            (* [time.sleep] *)
| ShowSuccess (text : str)       (* [st.success] *)
| ShowError (text : str)         (* [st.error] *)
| ShowInfo (text : str)          (* [st.info] *)
| ShowMarkdown (text : str)      (* [st.markdown] *)
| ShowSubheader (text : str)     (* [st.subheader] *)
| ShowExpander (label : str)     (* [st.expander] *)
| ShowTextArea (text : str)      (* [st.text_area] *)
| ShowDownload (file_name : str) (data : list Docx.element)
| ShowButton (label : str) (disabled : bool).

(** [st.session_state] once [init_session_state] has run: the five keys it
    sets are present, [slack_webhook] is present only after a URL has been
    entered. *)
Record session : Type := {
  st_transcript : str;
  st_summary : str;
  st_action_items : list str;
  st_docx_file : option (list Docx.element);
  st_processing_complete : bool;
  st_slack_webhook : option str
}.

(** The state of the application: the files on disk, the audio files
    recognised, the prompts sent to the model, the requests posted to
    Slack, the session, the page, and [temp_files], the local list of
    [process_meeting] that its [finally] block reads. *)
Record world : Type := {
  disk : gmap string (list N);
  recognised : list string;
  prompts : list str;
  posted : list Slack.request;
  state : session;
  ui : list event;
  temp_files : list string
}.

Definition set_disk (d : gmap string (list N)) (w : world) : world :=
  {| disk := d; recognised := recognised w; prompts := prompts w;
     posted := posted w; state := state w; ui := ui w;
     temp_files := temp_files w |}.

Definition set_recognised (r : list string) (w : world) : world :=
  {| disk := disk w; recognised := r; prompts := prompts w;
     posted := posted w; state := state w; ui := ui w;
     temp_files := temp_files w |}.

Definition set_prompts (p : list str) (w : world) : world :=
  {| disk := disk w; recognised := recognised w; prompts := p;
     posted := posted w; state := state w; ui := ui w;
     temp_files := temp_files w |}.

Definition set_posted (p : list Slack.request) (w : world) : world :=
  {| disk := disk w; recognised := recognised w; prompts := prompts w;
     posted := p; state := state w; ui := ui w;
     temp_files := temp_files w |}.

Definition set_state (s : session) (w : world) : world :=
  {| disk := disk w; recognised := recognised w; prompts := prompts w;
     posted := posted w; state := s; ui := ui w;
     temp_files := temp_files w |}.

Definition set_ui (u : list event) (w : world) : world :=
  {| disk := disk w; recognised := recognised w; prompts := prompts w;
     posted := posted w; state := state w; ui := u;
     temp_files := temp_files w |}.

Definition set_temp_files (t : list string) (w : world) : world :=
  {| disk := disk w; recognised := recognised w; prompts := prompts w;
     posted := posted w; state := state w; ui := ui w;
     temp_files := t |}.

(** One call that shows something on the page. *)
Definition emit (e : event) : M world unit :=
  modify (fun w => set_ui (ui w ++ [e]) w).

(** Assignments to the keys of the session. *)
Definition assign_transcript (t : str) : M world unit :=
  modify (fun w =>
    set_state {| st_transcript := t;
                 st_summary := st_summary (state w);
                 st_action_items := st_action_items (state w);
                 st_docx_file := st_docx_file (state w);
                 st_processing_complete := st_processing_complete (state w);
                 st_slack_webhook := st_slack_webhook (state w) |} w).

Definition assign_summary (t : str) : M world unit :=
  modify (fun w =>
    set_state {| st_transcript := st_transcript (state w);
                 st_summary := t;
                 st_action_items := st_action_items (state w);
                 st_docx_file := st_docx_file (state w);
                 st_processing_complete := st_processing_complete (state w);
                 st_slack_webhook := st_slack_webhook (state w) |} w).

Definition assign_action_items (l : list str) : M world unit :=
  modify (fun w =>
    set_state {| st_transcript := st_transcript (state w);
                 st_summary := st_summary (state w);
                 st_action_items := l;
                 st_docx_file := st_docx_file (state w);
                 st_processing_complete := st_processing_complete (state w);
                 st_slack_webhook := st_slack_webhook (state w) |} w).

Definition assign_docx_file (d : list Docx.element) : M world unit :=
  modify (fun w =>
    set_state {| st_transcript := st_transcript (state w);
                 st_summary := st_summary (state w);
                 st_action_items := st_action_items (state w);
                 st_docx_file := Some d;
                 st_processing_complete := st_processing_complete (state w);
                 st_slack_webhook := st_slack_webhook (state w) |} w).

Definition assign_processing_complete (b : bool) : M world unit :=
  modify (fun w =>
    set_state {| st_transcript := st_transcript (state w);
                 st_summary := st_summary (state w);
                 st_action_items := st_action_items (state w);
                 st_docx_file := st_docx_file (state w);
                 st_processing_complete := b;
                 st_slack_webhook := st_slack_webhook (state w) |} w).

(** An uploaded file: its declared size, what [read()] gives, and what
    [read().decode("utf-8")] gives. *)
Record file : Type := {
  size : N;
  read : outcome (list N);
  decoded : outcome str
}.

(** [MeetingSummarizer.validate_file_size]. *)
Definition validate_file_size (f : file) (max_size_mb : N) : M world bool :=
  let max_size_bytes := max_size_mb * 1024 * 1024 in
  if max_size_bytes <? size f
  then emit (ShowError (Config.file_too_large max_size_mb)) ;; ret false
  else ret true.

(** [handle_file_uploads]: the three arguments are what the three upload
    widgets hold; [describe e] is [str(e)]. *)
Definition handle_file_uploads (describe : exn -> str)
    (video_file audio_file transcript_file : option file)
  : M world (option file * option string) :=
  selected <-
    match video_file with
    | Some f =>
        ok <- validate_file_size f Config.MAX_FILE_SIZE_MB ;;
        if ok
        then emit (ShowSuccess Config.file_uploaded) ;;
             ret (Some f, Some "video"%string)
        else ret (None, None)
    | None => ret (None, None)
    end ;;
  selected <-
    match audio_file with
    | Some f =>
        ok <- validate_file_size f Config.MAX_FILE_SIZE_MB ;;
        if ok
        then emit (ShowSuccess Config.file_uploaded) ;;
             ret (Some f, Some "audio"%string)
        else ret selected
    | None => ret selected
    end ;;
  match transcript_file with
  | Some f =>
      try_except
        (text <- lift (decoded f) ;;
         let content := strip text in
         if truthy content
         then assign_transcript content ;;
              emit (ShowSuccess Config.file_uploaded) ;;
              ret (Some f, Some "text"%string)
         else emit (ShowError Config.empty_transcript) ;;
              ret selected)
        (fun e =>
           emit (ShowError ([10060] ++ py " Failed to read transcript: "
                            ++ describe e)) ;;
           ret selected)
  | None => ret selected
  end.

(** What [process_meeting] is given besides the upload: the summarizer
    (its prompts, the remote model, the recogniser), the answers of the
    temporary-file and media libraries, the text of an exception, and the
    time stamp of the document. *)
Record services : Type := {
  cfg : Summarizer.config;
  gemini : Summarizer.model;
  speech : Transcription.recogniser;
  tmp_video : outcome string;
  tmp_audio : outcome string;
  clip : outcome (option (outcome (list N)));
  describe : exn -> str;
  now_docx : str
}.

Definition media_of (env : services) (uploaded_file : file) : Audio.media :=
  {| Audio.new_video_tmp := tmp_video env;
     Audio.upload := read uploaded_file;
     Audio.new_audio_tmp := tmp_audio env;
     Audio.open_clip := clip env |}.

Definition extract_audio_from_video (env : services) (uploaded_file : file)
  : M world (string * string) :=
  zoom (fun w => Audio.enter (disk w)) (fun f w => set_disk (Audio.fs f) w)
    (Audio.extract_audio_from_video (media_of env uploaded_file)).

Definition transcribe_audio (env : services) (audio_path : string)
  : M world str :=
  zoom (fun w => (disk w, recognised w))
       (fun s w => set_recognised (snd s) (set_disk (fst s) w))
    (Transcription.transcribe_audio (speech env) audio_path).

Definition generate_summary_and_actions (env : services) (transcript : str)
    (meeting_type : string) : M world (str * list str) :=
  zoom prompts set_prompts
    (Summarizer.generate_summary_and_actions (cfg env) (gemini env)
       transcript meeting_type).

(** The [finally] block of [process_meeting]. *)
Definition remove_temp_files : M world unit :=
  w <- get ;;
  for_each (temp_files w) (fun temp_file =>
    w' <- get ;;
    if Transcription.exists_ (disk w') temp_file
    then try_except
           (modify (fun w'' => set_disk (delete temp_file (disk w'')) w''))
           (fun _ => ret tt)
    else ret tt).

(** Steps 1 and 2 of [process_meeting]: from the upload to a transcript in
    the session. *)
Definition obtain_transcript (env : services) (uploaded_file : file)
    (file_type : string) : M world unit :=
  w <- get ;;
  if (String.eqb file_type "video" || String.eqb file_type "audio")
     && negb (truthy (st_transcript (state w)))
  then
    modify (set_temp_files []) ;;
    try_finally
      (audio_path <-
         (if String.eqb file_type "video"
          then
            emit (ShowStatus ([127916] ++ py " Extracting audio from video...")) ;;
            emit (ShowProgress 10) ;;
            paths <- extract_audio_from_video env uploaded_file ;;
            modify (fun w' => set_temp_files
                                (temp_files w' ++ [fst paths; snd paths]) w') ;;
            ret (snd paths)
          else
            emit (ShowStatus ([127925] ++ py " Processing audio file...")) ;;
            emit (ShowProgress 10) ;;
            name <- lift (tmp_audio env) ;;
            modify (fun w' => set_disk (<[name := []]> (disk w')) w') ;;
            data <- lift (read uploaded_file) ;;
            modify (fun w' => set_disk (<[name := data]> (disk w')) w') ;;
            modify (fun w' => set_temp_files (temp_files w' ++ [name]) w') ;;
            ret name) ;;
       emit (ShowStatus ([127908] ++ py " Converting speech to text...")) ;;
       emit (ShowProgress 40) ;;
       transcript <- transcribe_audio env audio_path ;;
       assign_transcript transcript)
      remove_temp_files
  else ret tt.

(** Steps 3 and 4: summary, action items and document. *)
Definition summarize_and_assemble (env : services) (meeting_type : string)
  : M world unit :=
  w <- get ;;
  if truthy (st_transcript (state w))
  then
    emit (ShowStatus ([129302] ++ py " Generating summary and action items...")) ;;
    emit (ShowProgress 70) ;;
    result <- generate_summary_and_actions env (st_transcript (state w))
                meeting_type ;;
    assign_summary (fst result) ;;
    assign_action_items (snd result) ;;
    emit (ShowStatus ([128196] ++ py " Creating document...")) ;;
    emit (ShowProgress 90) ;;
    w' <- get ;;
    docx <- lift (Docx.create_docx (now_docx env)
                    (st_transcript (state w')) (st_summary (state w'))
                    (st_action_items (state w'))) ;;
    assign_docx_file docx ;;
    emit (ShowProgress 100) ;;
    emit (ShowStatus Config.processing_complete) ;;
    assign_processing_complete true ;;
    emit (Pause 1) ;;
    emit ClearProgress ;;
    emit ClearStatus ;;
    emit (ShowSuccess ([127881] ++ py " Meeting processed successfully!"))
  else ret tt.

Definition process_meeting (env : services) (uploaded_file : file)
    (file_type meeting_type : string) : M world unit :=
  emit (ShowProgress 0) ;;
  try_except
    (obtain_transcript env uploaded_file file_type ;;
     summarize_and_assemble env meeting_type)
    (fun e =>
       emit ClearProgress ;;
       emit ClearStatus ;;
       emit (ShowError ([10060] ++ py " Processing failed: "
                        ++ describe env e))).

(** The transcript as [display_results] shows it. *)
Definition display_transcript (transcript : str) : str :=
  if (Config.max_transcript_display <? length transcript)%nat
  then take Config.max_transcript_display transcript ++ py "..."
  else transcript.

(** [display_results]: what it adds to the page. *)
Definition display_results (s : session) : list event :=
  if negb (st_processing_complete s) then []
  else
    [ShowMarkdown (py "---")]
    ++ (if truthy (st_summary s)
        then [ShowSubheader ([128203] ++ py " Meeting Summary");
              ShowMarkdown (st_summary s)]
        else [])
    ++ (match st_action_items s with
        | _ :: _ =>
            ShowSubheader ([9989] ++ py " Action Items")
            :: imap (fun i item =>
                       ShowMarkdown (Probe.str_of_int (Z.of_nat (i + 1))
                                     ++ py ". " ++ item))
                 (st_action_items s)
        | [] => []
        end)
    ++ (if truthy (st_transcript s)
        then [ShowExpander ([128221] ++ py " View Full Transcript");
              ShowTextArea (display_transcript (st_transcript s))]
        else []).

(** The clock and the network as [display_download_and_share_options]
    meets them; [clicked] tells whether the Slack button was pressed. *)
Record sharing : Type := {
  now_file : str;      (* [datetime.now().strftime('%Y%m%d_%H%M%S')] *)
  now_header : str;
  now_footer : str;
  net : Slack.http;
  clicked : bool;
  describe_error : exn -> str
}.

Definition send_to_slack (env : sharing) (summary action_items webhook_url : str)
  : M world bool :=
  zoom posted set_posted
    (Slack.send_to_slack (now_header env) (now_footer env) (net env)
       summary action_items webhook_url).

Definition display_download_and_share_options (env : sharing) : M world unit :=
  w <- get ;;
  if negb (st_processing_complete (state w)) then ret tt
  else
    emit (ShowMarkdown (py "---")) ;;
    (match st_docx_file (state w) with
     | Some docx =>
         emit (ShowSubheader ([128190] ++ py " Download")) ;;
         emit (ShowDownload (py "meeting_summary_" ++ now_file env ++ py ".docx")
                 docx)
     | None => ret tt
     end) ;;
    match st_action_items (state w) with
    | [] => ret tt
    | _ :: _ =>
        emit (ShowSubheader ([128228] ++ py " Share")) ;;
        match st_slack_webhook (state w) with
        | None =>
            emit (ShowInfo ([128161]
                    ++ py " Enter a Slack webhook URL above to enable Slack sharing")) ;;
            emit (ShowButton ([128241] ++ py " Send to Slack") true)
        | Some webhook_url =>
            emit (ShowButton ([128241] ++ py " Send to Slack") false) ;;
            if clicked env
            then
              try_except
                (success <- send_to_slack env (st_summary (state w))
                              (join [LF] (st_action_items (state w)))
                              webhook_url ;;
                 if success
                 then emit (ShowSuccess Config.slack_sent)
                 else emit (ShowError Config.slack_error))
                (fun e =>
                   emit (ShowError ([10060] ++ py " Slack error: "
                                    ++ describe_error env e)))
            else ret tt
        end
    end.

End App.

(** ** [init_session_state] *)

Module SessionInit.

(** The values [init_session_state] stores. *)
Inductive value : Type :=
| VStr (s : str)
| VList (l : list str)
| VNone
| VBool (b : bool)
| VDocx (d : list Docx.element).

(** [defaults.items()], in the order of the dictionary display. *)
Definition defaults : list (string * value) :=
  [ ("transcript", VStr []);
    ("summary", VStr []);
    ("action_items", VList []);
    ("docx_file", VNone);
    ("processing_complete", VBool false) ]%string.

(** [st.session_state] as a dictionary. *)
Definition init_session_state (session_state : gmap string value)
  : gmap string value :=
  fold_left
    (fun ss kv =>
       match ss !! fst kv with
       | Some _ => ss
       | None => <[fst kv := snd kv]> ss
       end)
    defaults session_state.

End SessionInit.

(** ** Notions used to state what the functions guarantee *)

Module Notions.

(** The string does not begin with a whitespace code point. *)
Definition no_leading_space (s : str) : bool :=
  match s with
  | c :: _ => negb (isspace c)
  | [] => true
  end.

(** The string has no line feed in it. *)
Definition lf_free (s : str) : Prop := ~ In LF s.

(** An action item as the parser leaves it: it begins with a glyph, has no
    whitespace around it, and lies on one line. *)
Definition well_formed_item (item : str) : Prop :=
  begins_with_glyph item = true /\ strip item = item /\ lf_free item.

(** The code points [send_to_slack] strips from the front of an item. *)
Definition LEADING : list N := [HYPHEN; SPACE; BULLET; ASTERISK].

(** One line of the action-items section of the Slack message. *)
Definition bullet_line (item : str) : str :=
  [BULLET; SPACE] ++ lstrip_chars LEADING item.

(** A line of the action-items section in canonical form: one bullet and a
    space, then text that does not begin with a glyph or a space. *)
Definition canonical_line (line : str) : Prop :=
  exists rest,
    line = [BULLET; SPACE] ++ rest
    /\ match rest with
       | c :: _ => ~ In c LEADING
       | [] => True
       end.

(** The non-blank lines of the action-items string, trimmed. *)
Definition nonblank_lines (action_items : str) : list str :=
  map strip
    (List.filter (fun item => truthy (strip item)) (split LF action_items)).

(** The blocks of the message of [send_to_slack], given the lines of its
    action-items section ([[]] when there is no such section). *)
Definition slack_blocks (now_header now_footer summary : str)
    (lines : list str) : list Slack.block :=
  [ Slack.Header ([128221] ++ py " Meeting Summary - " ++ now_header);
    Slack.Divider;
    Slack.Section (py "*" ++ [128203] ++ py " Summary:*" ++ [LF] ++ summary) ]
  ++ match lines with
     | [] => []
     | _ :: _ =>
         [Slack.Section (py "*" ++ [9989] ++ py " Action Items:*" ++ [LF]
                         ++ join [LF] lines)]
     end
  ++ [ Slack.Divider;
       Slack.Context (py "Generated by Meeting Summarizer | " ++ now_footer) ].

(** The body of the document of [create_docx], spelled out. *)
Definition docx_layout (now transcript summary : str)
    (action_items : list str) : list Docx.element :=
  [ Docx.Heading (py "Meeting Summary Report") 0;
    Docx.Paragraph (py "Generated: " ++ now) None;
    Docx.Paragraph (repeat Docx.RULE 50) None;
    Docx.Heading (py "Executive Summary") 1;
    Docx.Paragraph summary None ]
  ++ match action_items with
     | [] => []
     | _ :: _ =>
         Docx.Heading (py "Action Items") 1
         :: map (fun item => Docx.Paragraph item (Some "List Bullet"%string))
              action_items
     end
  ++ [ Docx.Heading (py "Full Transcript") 1;
       Docx.Paragraph transcript None ].

(** Every text that goes into the document is XML compatible. *)
Definition assemblable (now transcript summary : str)
    (action_items : list str) : bool :=
  Docx.xml_compatible now
  && Docx.xml_compatible summary
  && forallb Docx.xml_compatible action_items
  && Docx.xml_compatible transcript.

(** The session when steps 3 and 4 of [process_meeting] have stored the
    summary and the action items and the document could not be assembled:
    the document and the completion flag are those of before. *)
Definition summarized (s : App.session) (summary : str)
    (action_items : list str) : App.session :=
  {| App.st_transcript := App.st_transcript s;
     App.st_summary := summary;
     App.st_action_items := action_items;
     App.st_docx_file := App.st_docx_file s;
     App.st_processing_complete := App.st_processing_complete s;
     App.st_slack_webhook := App.st_slack_webhook s |}.

(** The session after a successful run of steps 3 and 4 of
    [process_meeting]. *)
Definition processed (now : str) (s : App.session) (summary : str)
    (action_items : list str) : App.session :=
  {| App.st_transcript := App.st_transcript s;
     App.st_summary := summary;
     App.st_action_items := action_items;
     App.st_docx_file :=
       Some (docx_layout now (App.st_transcript s) summary action_items);
     App.st_processing_complete := true;
     App.st_slack_webhook := App.st_slack_webhook s |}.

(** The session with another transcript. *)
Definition with_transcript (t : str) (s : App.session) : App.session :=
  {| App.st_transcript := t;
     App.st_summary := App.st_summary s;
     App.st_action_items := App.st_action_items s;
     App.st_docx_file := App.st_docx_file s;
     App.st_processing_complete := App.st_processing_complete s;
     App.st_slack_webhook := App.st_slack_webhook s |}.

(** The files left when the listed paths have been removed. *)
Definition without (paths : list string) (files : gmap string (list N))
  : gmap string (list N) :=
  fold_left (fun d p => delete p d) paths files.




(** The upload widget holds a file within the size limit of 100 MB. *)
Definition fits (widget : option App.file) : bool :=
  match widget with
  | Some f => negb (100 * 1024 * 1024 <? App.size f)
  | None => false
  end.

(** The transcript a text upload provides: its decoded text, trimmed, when
    that is not empty. *)
Definition usable_text (widget : option App.file) : option str :=
  match widget with
  | Some f =>
      match App.decoded f with
      | Return text => if truthy (strip text) then Some (strip text) else None
      | Raise _ => None
      end
  | None => None
  end.

(** The Slack button of [display_download_and_share_options] is there,
    enabled, and has been pressed. *)
Definition share_requested (env : App.sharing) (s : App.session) : bool :=
  App.st_processing_complete s
  && negb (ActionItems.is_nil (App.st_action_items s))
  && match App.st_slack_webhook s with Some _ => true | None => false end
  && App.clicked env.

(** The progress values shown, in order. *)
Definition progress_shown (events : list App.event) : list N :=
  flat_map (fun e => match e with App.ShowProgress n => [n] | _ => [] end)
    events.

(** The two prompts [generate_summary_and_actions] builds for a meeting
    type: the pair of the table, or the general pair for a type that is not
    in it. *)
Definition prompts_for (cfg : Summarizer.config) (meeting_type : string)
    (transcript : str) : str * str :=
  match Summarizer.MEETING_TYPE_PROMPTS cfg !! meeting_type with
  | Some prompts =>
      (Summarizer.format (Summarizer.summary_template prompts) transcript,
       Summarizer.format (Summarizer.actions_template prompts) transcript)
  | None =>
      (Summarizer.format (Summarizer.SUMMARIZATION_PROMPT cfg) transcript,
       Summarizer.format (Summarizer.ACTION_ITEMS_PROMPT cfg) transcript)
  end.

End Notions.

(** ** Sample values for the examples *)

Module Samples.

Definition sample_cfg : Summarizer.config :=
  {| Summarizer.SUMMARIZATION_PROMPT :=
       [Summarizer.Lit (py "Summarize: "); Summarizer.TranscriptField];
     Summarizer.ACTION_ITEMS_PROMPT :=
       [Summarizer.Lit (py "Actions: "); Summarizer.TranscriptField];
     Summarizer.MEETING_TYPE_PROMPTS := ∅ |}.

(** Services that all answer: a clip with audio, speech in it, a model that
    gives a summary and then two action items. *)
Definition sample_services : App.services :=
  {| App.cfg := sample_cfg;
     App.gemini := fun n _ =>
       match n with
       | O => Return (py " The team met. ")
       | _ => Return (py "Alice sends the report" ++ [LF] ++ py "- Bob books a room")
       end;
     App.speech := fun _ => Return (py " Alice will send the report. ");
     App.tmp_video := Return "/tmp/tmpab12.mp4"%string;
     App.tmp_audio := Return "/tmp/tmpcd34.wav"%string;
     App.clip := Return (Some (Return [82; 73; 70; 70]));
     App.describe := fun _ => py "error";
     App.now_docx := py "2024-01-01 10:00:00" |}.

(** The same services with a model that is out of reach. *)
Definition offline_services : App.services :=
  {| App.cfg := sample_cfg;
     App.gemini := fun _ _ => Raise (LibraryError "unavailable");
     App.speech := fun _ => Return (py " Alice will send the report. ");
     App.tmp_video := Return "/tmp/tmpab12.mp4"%string;
     App.tmp_audio := Return "/tmp/tmpcd34.wav"%string;
     App.clip := Return (Some (Return [82; 73; 70; 70]));
     App.describe := fun _ => py "error";
     App.now_docx := py "2024-01-01 10:00:00" |}.

Definition sample_upload : App.file :=
  {| App.size := 4;
     App.read := Return [0; 0; 0; 24];
     App.decoded := Raise (LibraryError "invalid start byte") |}.

(** An upload that cannot be read. *)
Definition broken_upload : App.file :=
  {| App.size := 4;
     App.read := Raise (LibraryError "read failed");
     App.decoded := Raise (LibraryError "read failed") |}.

Definition text_upload : App.file :=
  {| App.size := 38;
     App.read := Return [];
     App.decoded := Return (py " Alice will send the report by Monday. ") |}.

Definition fresh_session : App.session :=
  {| App.st_transcript := [];
     App.st_summary := [];
     App.st_action_items := [];
     App.st_docx_file := None;
     App.st_processing_complete := false;
     App.st_slack_webhook := None |}.

Definition fresh_world : App.world :=
  {| App.disk := {[ "/tmp/other"%string := [1] ]};
     App.recognised := [];
     App.prompts := [];
     App.posted := [];
     App.state := fresh_session;
     App.ui := [];
     App.temp_files := [] |}.

(** A world whose session already holds a transcript. *)
Definition transcribed_world : App.world :=
  App.set_state
    (Notions.with_transcript (py "Alice will send the report.") fresh_session)
    fresh_world.

(** A world whose session holds a transcript with a form feed in it. *)
Definition paged_world : App.world :=
  App.set_state
    (Notions.with_transcript (py "Page one" ++ [12] ++ py "Page two")
       fresh_session)
    fresh_world.

End Samples.

(** * Properties *)

Import Summarizer Audio Docx Slack.
Import Notions.

(** ** Python strings *)

Example split_empty : split LF [] = [[]].
Proof. reflexivity. Qed.

Example split_trailing_separator : split LF (py "a" ++ [LF]) = [py "a"; []].
Proof. reflexivity. Qed.

Example strip_both_ends : strip ([9; SPACE] ++ py "a b" ++ [13; LF]) = py "a b".
Proof. reflexivity. Qed.

Example lower_ascii : lower (py "No Way") = py "no way".
Proof. reflexivity. Qed.

Lemma split_not_nil sep s : split sep s <> [].
Proof.
  destruct s as [|c s]; simpl; [discriminate|].
  destruct (c =? sep); [discriminate|].
  destruct (split sep s); discriminate.
Qed.

Lemma startswith_nil s : startswith s [] = true.
Proof. now destruct s. Qed.

Ltac case_eqb :=
  repeat match goal with
         | |- context [N.eqb ?a ?b] => destruct (N.eqb_spec a b)
         | |- context [N.leb ?a ?b] => destruct (N.leb_spec a b)
         end;
  simpl; try reflexivity; try lia.

(** The first code point of [lower_char c] is the letter n (or o) exactly
    when [c] is that letter in either case, and a longer result does not
    begin with either. *)
Lemma lower_char_head c :
  exists h t,
    lower_char c = h :: t
    /\ (h =? 110) = ((c =? 110) || (c =? 78))
    /\ (h =? 111) = ((c =? 111) || (c =? 79))
    /\ (t = [] \/ (h =? 110) = false).
Proof.
  unfold lower_char.
  destruct ((65 <=? c) && (c <=? 90)) eqn:E1.
  { apply andb_true_iff in E1 as [L1 L2].
    apply N.leb_le in L1, L2.
    exists (c + 32), []. repeat split; [case_eqb | case_eqb | now left]. }
  destruct ((192 <=? c) && (c <=? 222) && negb (c =? 215)) eqn:E2.
  { apply andb_true_iff in E2 as [E2 _].
    apply andb_true_iff in E2 as [L1 L2].
    apply N.leb_le in L1, L2.
    exists (c + 32), []. repeat split; [case_eqb | case_eqb | now left]. }
  destruct (N.eqb_spec c 304) as [->|N1].
  { exists 105, [775]. repeat split; now right. }
  destruct (N.eqb_spec c 8490) as [->|N2].
  { exists 107, []. repeat split; now left. }
  destruct (N.eqb_spec c 8491) as [->|N3].
  { exists 229, []. repeat split; now left. }
  exists c, []. repeat split; [| | now left].
  - destruct (N.eqb_spec c 78) as [->|]; [discriminate E1|].
    now rewrite orb_false_r.
  - destruct (N.eqb_spec c 79) as [->|]; [discriminate E1|].
    now rewrite orb_false_r.
Qed.

(** [line.lower().startswith('no')] looks at the first two code points
    only. *)
Lemma lower_startswith_no line :
  startswith (lower line) (py "no") = begins_with_no line.
Proof.
  change (py "no") with [110; 111].
  destruct line as [|a [|b rest]].
  - reflexivity.
  - unfold lower; simpl.
    destruct (lower_char_head a) as (h & t & -> & Hn & _ & [-> | Hf]); simpl.
    + apply andb_false_r.
    + now rewrite Hf.
  - unfold lower; simpl.
    destruct (lower_char_head a) as (h & t & -> & Hn & _ & Ht).
    destruct (lower_char_head b) as (h' & t' & -> & _ & Ho & _).
    simpl. destruct Ht as [-> | Hf].
    + simpl. now rewrite startswith_nil, Hn, Ho, andb_true_r.
    + rewrite <- Hn, Hf. reflexivity.
Qed.

Lemma startswith_any_glyph line :
  startswith line [HYPHEN] || startswith line [BULLET]
  || startswith line [ASTERISK]
  = begins_with_glyph line.
Proof.
  destruct line as [|c line]; simpl; [reflexivity|].
  rewrite !startswith_nil, !andb_true_r, orb_false_r, orb_assoc. reflexivity.
Qed.

Lemma length_eqb_0 {A} (l : list A) : (length l =? 0)%nat = is_nil l.
Proof. destruct l; reflexivity. Qed.

(** One round of the loop, read through [line_rule]. *)
Lemma parse_line_rule action_items line :
  parse_line action_items line
  = match line_rule begins_with_no (is_nil action_items) (strip line) with
    | Some item => action_items ++ [item]
    | None => action_items
    end.
Proof.
  unfold parse_line, line_rule.
  rewrite startswith_any_glyph, lower_startswith_no, length_eqb_0.
  destruct (truthy (strip line)); simpl; [|reflexivity].
  destruct (begins_with_glyph (strip line)); simpl; [reflexivity|].
  destruct (is_nil action_items && negb (begins_with_no (strip line)));
    reflexivity.
Qed.

(** The loop from any collected list. *)
Lemma parse_loop lines : forall action_items,
  fold_left parse_line lines action_items
  = action_items
    ++ items_by_rule begins_with_no (is_nil action_items) (map strip lines).
Proof.
  induction lines as [|line lines IH]; intros acc; simpl.
  - now rewrite app_nil_r.
  - rewrite IH, parse_line_rule.
    destruct (line_rule begins_with_no (is_nil acc) (strip line)) as [item|].
    + rewrite <- app_assoc. simpl.
      replace (is_nil (acc ++ [item])) with false; [reflexivity|].
      now destruct acc.
    + reflexivity.
Qed.

(** ** Action-item parsing *)

Example parse_all_bulleted :
  parse_action_items (py "- a" ++ [LF] ++ py "* b" ++ [LF; BULLET] ++ py " c")
  = [py "- a"; py "* b"; BULLET :: py " c"].
Proof. reflexivity. Qed.

Example parse_trims_lines :
  parse_action_items (py "  - a " ++ [13; LF; LF] ++ py "plain" ++ [LF])
  = [py "- a"].
Proof. reflexivity. Qed.

Example parse_second_plain_line_dropped :
  parse_action_items (py "first" ++ [LF] ++ py "second") = [py "- first"].
Proof. reflexivity. Qed.

Example parse_upper_case_no :
  parse_action_items (py "NO items") = [].
Proof. reflexivity. Qed.

(** C2, as amended.  For every model response text the parser handles the
    lines of the stripped text in order, each one trimmed: a non-blank line
    that starts with one of the glyphs [-], U+2022, [*] is kept as it is; a
    non-blank line without a glyph is kept with ["- "] in front exactly when
    no item has been collected yet and the line does not begin with the two
    letters n, o in either case (whether or not they are a whole word); every
    other line is dropped. *)
Theorem parse_action_items_rule (text : str) :
  parse_action_items text
  = items_by_rule begins_with_no true (trimmed_lines text).
Proof.
  unfold parse_action_items, trimmed_lines.
  now rewrite parse_loop.
Qed.

(** C2 as the claim words it, with "begins with the word no": a first line
    such as "Notify Bob" does not begin with the word "no", so the claim
    keeps it as an item, and the parser drops it. *)
Lemma parse_action_items_word_no_counterexample :
  let text := py "Notify Bob" in
  parse_action_items text = []
  /\ items_by_rule begins_with_word_no true (trimmed_lines text)
     = [py "- Notify Bob"]
  /\ parse_action_items text
     <> items_by_rule begins_with_word_no true (trimmed_lines text).
Proof.
  vm_compute. repeat split. discriminate.
Qed.

(** C5.  The response "No action items identified in this meeting" gives
    no action item. *)
Theorem parse_no_action_items_response :
  parse_action_items (py "No action items identified in this meeting") = [].
Proof. vm_compute. reflexivity. Qed.

(** C6.  The response "Follow up with client", line feed, "- Send contract
    by Friday" gives the two items "- Follow up with client" and "- Send
    contract by Friday", in this order. *)
Theorem parse_unbulleted_then_bulleted :
  parse_action_items
    (py "Follow up with client" ++ [LF] ++ py "- Send contract by Friday")
  = [py "- Follow up with client"; py "- Send contract by Friday"].
Proof. vm_compute. reflexivity. Qed.

Lemma line_rule_item is_no none_yet line item :
  line_rule is_no none_yet line = Some item ->
  begins_with_glyph item = true
  /\ (item = line \/ item = py "- " ++ line).
Proof.
  unfold line_rule.
  destruct (negb (truthy line)); [discriminate|].
  destruct (begins_with_glyph line) eqn:G.
  - intros [= <-]. auto.
  - destruct (none_yet && negb (is_no line)); [|discriminate].
    intros [= <-]. split; [reflexivity | now right].
Qed.

Lemma items_by_rule_items is_no lines : forall none_yet,
  Forall (item_of_line lines) (items_by_rule is_no none_yet lines).
Proof.
  induction lines as [|line lines IH]; intros none_yet; simpl.
  - constructor.
  - assert (W : forall b,
      Forall (item_of_line (line :: lines)) (items_by_rule is_no b lines)).
    { intros b. eapply Forall_impl; [apply IH|].
      intros item (G & [I | (l & I & E)]); split; auto.
      - left. now right.
      - right. exists l. split; [now right | exact E]. }
    destruct (line_rule is_no none_yet line) as [item|] eqn:R; [|apply W].
    constructor; [|apply W].
    apply line_rule_item in R as (G & [-> | ->]); split; auto.
    + left. now left.
    + right. exists line. split; [now left | reflexivity].
Qed.

(** C9.  For every model response text, every item the parser returns
    begins with one of the glyphs [-], U+2022, [*]: it is a trimmed line of
    the response that begins with a glyph, or a trimmed line with ["- "] in
    front. *)
Theorem parse_action_items_bulleted (text : str) :
  Forall (item_of_line (trimmed_lines text)) (parse_action_items text).
Proof.
  unfold parse_action_items.
  rewrite parse_loop. simpl.
  apply items_by_rule_items.
Qed.

(** ** The summarizer *)

Lemma lstrip_whitespace_only s : whitespace_only s = true -> lstrip s = [].
Proof.
  induction s as [|c s IH]; simpl; [reflexivity|].
  intros [Hc Hs]%andb_true_iff. rewrite Hc. auto.
Qed.

Lemma strip_whitespace_only s : whitespace_only s = true -> strip s = [].
Proof.
  intros H. unfold strip. now rewrite lstrip_whitespace_only.
Qed.

(** C4.  For every transcript that is empty or made of whitespace only,
    [generate_summary_and_actions] raises "Transcript is empty" and sends no
    generation request: the list of prompts sent is as it was. *)
Theorem empty_transcript_rejected (cfg : config) (gemini : model)
    (transcript : str) (meeting_type : string) (sent : list str) :
  whitespace_only transcript = true ->
  generate_summary_and_actions cfg gemini transcript meeting_type sent
  = (Raise (Exception "Transcript is empty"), sent).
Proof.
  intros H. unfold generate_summary_and_actions, try_except.
  now rewrite strip_whitespace_only.
Qed.

Lemma empty_transcript_rejected_witness :
  let cfg := {| SUMMARIZATION_PROMPT := [Lit (py "Summarize: "); TranscriptField];
                ACTION_ITEMS_PROMPT := [Lit (py "Actions: "); TranscriptField];
                MEETING_TYPE_PROMPTS := ∅ |} in
  let gemini : model := fun _ _ => Return (py "- item") in
  whitespace_only [SPACE; 9; LF] = true
  /\ generate_summary_and_actions cfg gemini [SPACE; 9; LF] "general" []
     = (Raise (Exception "Transcript is empty"), []).
Proof.
  split; [reflexivity|].
  apply (empty_transcript_rejected _ _ [SPACE; 9; LF] "general" []).
  reflexivity.
Defined.

Example summarize_general :
  let cfg := {| SUMMARIZATION_PROMPT := [Lit (py "S: "); TranscriptField];
                ACTION_ITEMS_PROMPT := [Lit (py "A: "); TranscriptField];
                MEETING_TYPE_PROMPTS := ∅ |} in
  let gemini : model := fun n _ =>
    match n with
    | O => Return (py " sum ")
    | _ => Return (py "do x" ++ [LF] ++ py "- do y")
    end in
  generate_summary_and_actions cfg gemini (py "t") "general" []
  = (Return (py "sum", [py "- do x"; py "- do y"]), [py "S: t"; py "A: t"]).
Proof. vm_compute. reflexivity. Qed.

(** ** The audio pipeline *)

Example extract_success :
  let w := {| new_video_tmp := Return "/tmp/v.mp4";
              upload := Return [1; 2; 3];
              new_audio_tmp := Return "/tmp/a.wav";
              open_clip := Return (Some (Return [7; 7])) |} in
  let '(r, f) := extract_audio_from_video w (enter ∅) in
  r = Return ("/tmp/v.mp4", "/tmp/a.wav")
  /\ fs f !! "/tmp/v.mp4" = Some [1; 2; 3]
  /\ fs f !! "/tmp/a.wav" = Some [7; 7].
Proof. vm_compute. auto. Qed.

(** When the upload cannot be read the handler finds [tmp_video_path]
    unbound. *)
Example extract_upload_fails :
  let w := {| new_video_tmp := Return "/tmp/v.mp4";
              upload := Raise (LibraryError "read");
              new_audio_tmp := Return "/tmp/a.wav";
              open_clip := Return None |} in
  fst (extract_audio_from_video w (enter ∅))
  = Raise (UnboundLocalError "tmp_video_path").
Proof. vm_compute. reflexivity. Qed.

(** The run of [extract_audio_from_video] on a clip without audio. *)
Lemma no_audio_track_cleans_up_aux (w : media) (files : gmap string (list N))
    (v a : string) (data : list N) :
  new_video_tmp w = Return v ->
  upload w = Return data ->
  new_audio_tmp w = Return a ->
  open_clip w = Return None ->
  let '(r, f) := extract_audio_from_video w (enter files) in
  r = Raise (Exception "No audio track found in video file")
  /\ fs f !! v = None
  /\ fs f !! a = None
  /\ forall p, p <> v -> p <> a -> fs f !! p = files !! p.
Proof.
  intros Hv Hd Ha Hc.
  unfold extract_audio_from_video, try_except, NamedTemporaryFile, cleanup,
    write_file, set_tmp_video_path, set_tmp_audio_path, unlink, exists_,
    bind, lift, ret, raise, get, modify, enter; simpl.
  rewrite Hv, Hd, Ha, Hc; simpl.
  unfold bind, ret; simpl.
  destruct (decide (v = a)) as [->|Hne].
  - rewrite lookup_insert_eq; simpl.
    rewrite lookup_delete_eq; simpl.
    repeat split; try apply lookup_delete_eq.
    intros p Hp _.
    rewrite lookup_delete_ne by congruence.
    rewrite !lookup_insert_ne by congruence. reflexivity.
  - rewrite lookup_insert_ne by congruence.
    rewrite lookup_insert_eq; simpl.
    rewrite lookup_delete_ne by congruence.
    rewrite lookup_insert_eq; simpl.
    repeat split.
    + rewrite lookup_delete_ne by congruence. apply lookup_delete_eq.
    + apply lookup_delete_eq.
    + intros p Hpv Hpa.
      rewrite !lookup_delete_ne by congruence.
      rewrite !lookup_insert_ne by congruence. reflexivity.
Qed.

(** C3.  For every upload whose clip has no audio stream,
    [extract_audio_from_video] raises "No audio track found in video file",
    and when the exception leaves the function neither of the two temporary
    files it created exists, every other file being as it was before the
    call. *)
Theorem no_audio_track_cleans_up (w : media) (files : gmap string (list N))
    (v a : string) (data : list N) :
  new_video_tmp w = Return v ->
  upload w = Return data ->
  new_audio_tmp w = Return a ->
  open_clip w = Return None ->
  let '(r, f) := extract_audio_from_video w (enter files) in
  r = Raise (Exception "No audio track found in video file")
  /\ fs f !! v = None
  /\ fs f !! a = None
  /\ forall p, p <> v -> p <> a -> fs f !! p = files !! p.
Proof. apply no_audio_track_cleans_up_aux. Qed.

Lemma no_audio_track_cleans_up_witness :
  let w := {| new_video_tmp := Return "/tmp/tmpab12.mp4";
              upload := Return [0; 0; 0; 24];
              new_audio_tmp := Return "/tmp/tmpcd34.wav";
              open_clip := Return None |} in
  let files : gmap string (list N) := {[ "/tmp/other" := [1] ]} in
  let '(r, f) := extract_audio_from_video w (enter files) in
  r = Raise (Exception "No audio track found in video file")
  /\ fs f !! "/tmp/tmpab12.mp4" = None
  /\ fs f !! "/tmp/tmpcd34.wav" = None
  /\ forall p, p <> "/tmp/tmpab12.mp4" -> p <> "/tmp/tmpcd34.wav" ->
       fs f !! p = ({[ "/tmp/other" := [1] ]} : gmap string (list N)) !! p.
Proof.
  intros w files.
  apply (no_audio_track_cleans_up w files
           "/tmp/tmpab12.mp4" "/tmp/tmpcd34.wav" [0; 0; 0; 24]);
    reflexivity.
Defined.

(** With names that were free before the call, as a temporary-file
    creation gives them, the files after the call are the files before
    it. *)
Lemma no_audio_track_restores_files (w : media)
    (files : gmap string (list N)) (v a : string) (data : list N) :
  new_video_tmp w = Return v ->
  upload w = Return data ->
  new_audio_tmp w = Return a ->
  open_clip w = Return None ->
  files !! v = None ->
  files !! a = None ->
  fs (snd (extract_audio_from_video w (enter files))) = files.
Proof.
  intros Hv Hd Ha Hc Fv Fa.
  pose proof (no_audio_track_cleans_up_aux w files v a data Hv Hd Ha Hc) as H.
  destruct (extract_audio_from_video w (enter files)) as [r f]; simpl.
  destruct H as (_ & Nv & Na & Other).
  apply map_eq. intros p.
  destruct (decide (p = v)) as [->|]; [congruence|].
  destruct (decide (p = a)) as [->|]; [congruence|].
  now apply Other.
Qed.

(** ** The document assembler *)

Lemma for_each_add_paragraph (items : list str) (style : option string) :
  forall doc : list element,
    forallb xml_compatible items = true ->
    for_each items (fun item => add_paragraph item style) doc
    = (Return tt, doc ++ map (fun item => Paragraph item style) items).
Proof.
  induction items as [|item items IH]; intros doc H; simpl.
  - unfold ret. now rewrite app_nil_r.
  - simpl in H. apply andb_true_iff in H as [Hi Hs].
    unfold bind, add_paragraph at 1. rewrite Hi. unfold modify at 1.
    rewrite IH by exact Hs. now rewrite <- app_assoc.
Qed.

Lemma for_each_add_paragraph_bad (items : list str) (style : option string) :
  forall doc : list element,
    forallb xml_compatible items = false ->
    exists doc',
      for_each items (fun item => add_paragraph item style) doc
      = (Raise XML_ERROR, doc').
Proof.
  induction items as [|item items IH]; intros doc H; simpl in *;
    [discriminate|].
  unfold bind, add_paragraph at 1.
  destruct (xml_compatible item) eqn:Hi; simpl in H.
  - unfold modify at 1. destruct (IH (doc ++ [Paragraph item style]) H)
      as [doc' ->]. now exists doc'.
  - now exists doc.
Qed.

Lemma run_add_heading {B} text level (k : M (list element) B) doc :
  xml_compatible text = true ->
  (add_heading text level ;; k) doc = k (doc ++ [Heading text level]).
Proof. intros H. unfold bind, add_heading. now rewrite H. Qed.

Lemma run_add_paragraph {B} text style (k : M (list element) B) doc :
  xml_compatible text = true ->
  (add_paragraph text style ;; k) doc = k (doc ++ [Paragraph text style]).
Proof. intros H. unfold bind, add_paragraph. now rewrite H. Qed.

Lemma run_add_paragraph_bad {B} text style (k : M (list element) B) doc :
  xml_compatible text = false ->
  (add_paragraph text style ;; k) doc = (Raise XML_ERROR, doc).
Proof. intros H. unfold bind, add_paragraph. now rewrite H. Qed.

Lemma run_bullets {B} items style (k : M (list element) B) doc :
  forallb xml_compatible items = true ->
  (for_each items (fun item => add_paragraph item style) ;; k) doc
  = k (doc ++ map (fun item => Paragraph item style) items).
Proof. intros H. unfold bind. now rewrite for_each_add_paragraph. Qed.

Lemma run_bullets_bad {B} items style (k : M (list element) B) doc :
  forallb xml_compatible items = false ->
  exists doc',
    (for_each items (fun item => add_paragraph item style) ;; k) doc
    = (Raise XML_ERROR, doc').
Proof.
  intros H. unfold bind.
  destruct (for_each_add_paragraph_bad items style doc H) as [doc' ->].
  now exists doc'.
Qed.

Lemma run_bind_assoc {S A B C} (m : M S A) (f : A -> M S B) (g : B -> M S C) s :
  bind (bind m f) g s = bind m (fun x => bind (f x) g) s.
Proof. unfold bind. destruct (m s) as [[x|e] s']; reflexivity. Qed.

Lemma xml_compatible_generated now :
  xml_compatible (py "Generated: " ++ now) = xml_compatible now.
Proof. unfold xml_compatible. now rewrite forallb_app. Qed.

(** The run of [create_docx]: the layout when every text is XML
    compatible, the exception otherwise. *)
Lemma create_docx_run (now transcript summary : str)
    (action_items : list str) :
  create_docx now transcript summary action_items
  = if assemblable now transcript summary action_items
    then Return (docx_layout now transcript summary action_items)
    else Raise XML_ERROR.
Proof.
  unfold create_docx, try_except, assemblable, docx_layout.
  rewrite run_add_heading by reflexivity.
  destruct (xml_compatible now) eqn:Hn; cbn [andb].
  2:{ rewrite run_add_paragraph_bad; [reflexivity|].
      now rewrite xml_compatible_generated. }
  rewrite run_add_paragraph by now rewrite xml_compatible_generated.
  rewrite run_add_paragraph by reflexivity.
  rewrite run_add_heading by reflexivity.
  destruct (xml_compatible summary) eqn:Hs; cbn [andb].
  2:{ now rewrite run_add_paragraph_bad. }
  rewrite run_add_paragraph by exact Hs.
  destruct action_items as [|item items].
  - cbn [forallb andb]. unfold bind at 1, ret at 1.
    rewrite run_add_heading by reflexivity.
    unfold add_paragraph.
    destruct (xml_compatible transcript); [|reflexivity].
    unfold modify. cbn. reflexivity.
  - rewrite run_bind_assoc. rewrite run_add_heading by reflexivity.
    destruct (forallb xml_compatible (item :: items)) eqn:Hi; cbn [andb].
    + rewrite run_bullets by exact Hi.
      rewrite run_add_heading by reflexivity.
      unfold add_paragraph.
      destruct (xml_compatible transcript); [|reflexivity].
      unfold modify. cbn -[py repeat]. rewrite <- !app_assoc. reflexivity.
    + edestruct (run_bullets_bad (B:=unit) (item :: items)) as [doc' E];
        [exact Hi|].
      rewrite E. reflexivity.
Qed.



Example create_docx_without_items :
  create_docx (py "2024-01-01 10:00:00") (py "T") (py "S") []
  = Return [ Heading (py "Meeting Summary Report") 0;
             Paragraph (py "Generated: 2024-01-01 10:00:00") None;
             Paragraph (repeat RULE 50) None;
             Heading (py "Executive Summary") 1;
             Paragraph (py "S") None;
             Heading (py "Full Transcript") 1;
             Paragraph (py "T") None ].
Proof. vm_compute. reflexivity. Qed.

Example create_docx_with_items :
  create_docx (py "n") (py "T") (py "S") [py "- a"; py "- b"]
  = Return [ Heading (py "Meeting Summary Report") 0;
             Paragraph (py "Generated: n") None;
             Paragraph (repeat RULE 50) None;
             Heading (py "Executive Summary") 1;
             Paragraph (py "S") None;
             Heading (py "Action Items") 1;
             Paragraph (py "- a") (Some "List Bullet");
             Paragraph (py "- b") (Some "List Bullet");
             Heading (py "Full Transcript") 1;
             Paragraph (py "T") None ].
Proof. vm_compute. reflexivity. Qed.

(** ** The webhook notifier *)

Section SendToSlack.

Variables (now_header now_footer : str) (net : http).
Variables (summary action_items webhook_url : str).
Variable sent : list request.

Let run := send_to_slack now_header now_footer net summary action_items
             webhook_url sent.

(** The first guard: an empty URL or one without the prefix. *)
Lemma send_to_slack_invalid_url :
  negb (truthy webhook_url) || negb (startswith webhook_url WEBHOOK_PREFIX)
  = true ->
  run = (Return false, sent).
Proof.
  intros G. unfold run, send_to_slack, try_except. now rewrite G.
Qed.

(** The second guard: nothing to send. *)
Lemma send_to_slack_no_content :
  negb (truthy webhook_url) || negb (startswith webhook_url WEBHOOK_PREFIX)
  = false ->
  negb (truthy (strip summary)) && negb (truthy (strip action_items)) = true ->
  run = (Return false, sent).
Proof.
  intros G1 G2. unfold run, send_to_slack, try_except. now rewrite G1, G2.
Qed.

(** Past both guards one request is sent, and its outcome decides the
    result. *)
Lemma send_to_slack_posts :
  negb (truthy webhook_url) || negb (startswith webhook_url WEBHOOK_PREFIX)
  = false ->
  negb (truthy (strip summary)) && negb (truthy (strip action_items)) = false ->
  exists rq,
    url rq = webhook_url
    /\ timeout rq = 30
    /\ run = (Return match net (length sent) rq with
                     | Return resp => (status_code resp =? 200)%Z
                     | Raise _ => false
                     end,
              sent ++ [rq]).
Proof.
  intros G1 G2. unfold run, send_to_slack, try_except. rewrite G1, G2.
  unfold bind, post, ret.
  match goal with |- context [net (length sent) ?r] => exists r end.
  repeat split.
  destruct (net (length sent) _) as [resp|e].
  - now destruct (status_code resp =? 200)%Z.
  - now destruct e.
Qed.

End SendToSlack.

Lemma startswith_prefix_truthy webhook_url :
  startswith webhook_url WEBHOOK_PREFIX = true -> truthy webhook_url = true.
Proof. now destruct webhook_url. Qed.

Example send_to_slack_message :
  let net : http := fun _ _ => Return {| status_code := 200; text := py "ok" |} in
  send_to_slack (py "H") (py "F") net (py "S")
    (py "- a" ++ [LF] ++ py "* - b" ++ [LF; LF; BULLET] ++ py "c")
    (py "https://hooks.slack.com/services/T0/B0/X0") []
  = (Return true,
     [ {| url := py "https://hooks.slack.com/services/T0/B0/X0";
          json :=
            [ Header ([128221] ++ py " Meeting Summary - H");
              Divider;
              Section (py "*" ++ [128203] ++ py " Summary:*" ++ [LF] ++ py "S");
              Section (py "*" ++ [9989] ++ py " Action Items:*" ++ [LF]
                       ++ [BULLET] ++ py " a" ++ [LF]
                       ++ [BULLET] ++ py " b" ++ [LF]
                       ++ [BULLET] ++ py " c");
              Divider;
              Context (py "Generated by Meeting Summarizer | F") ];
          timeout := 30;
          headers := [("Content-Type", "application/json")] |} ]).
Proof. vm_compute. reflexivity. Qed.

Example validate_webhook_url_short :
  validate_webhook_url (py "https://hooks.slack.com/x") = false.
Proof. reflexivity. Qed.

(** C1, as amended.  For every webhook URL that does not begin with
    [https://hooks.slack.com/] (the empty URL is one), [send_to_slack]
    returns [False] and sends no request.  The length of the URL is not
    looked at by [send_to_slack]; [validate_webhook_url] is the function
    that asks for more than 50 characters. *)
Theorem send_to_slack_rejects_foreign_url (now_header now_footer : str)
    (net : http) (summary action_items webhook_url : str)
    (sent : list request) :
  startswith webhook_url WEBHOOK_PREFIX = false ->
  send_to_slack now_header now_footer net summary action_items webhook_url sent
  = (Return false, sent).
Proof.
  intros H. apply send_to_slack_invalid_url.
  rewrite H. apply orb_true_r.
Qed.

Lemma send_to_slack_rejects_foreign_url_witness :
  let net : http := fun _ _ => Return {| status_code := 200; text := py "ok" |} in
  startswith (py "http://example.com/hooks/0123456789/0123456789/0123456789")
    WEBHOOK_PREFIX = false
  /\ send_to_slack (py "H") (py "F") net (py "S") (py "- a")
       (py "http://example.com/hooks/0123456789/0123456789/0123456789") []
     = (Return false, []).
Proof.
  split; [reflexivity|].
  apply (send_to_slack_rejects_foreign_url (py "H") (py "F") _ (py "S")
           (py "- a")
           (py "http://example.com/hooks/0123456789/0123456789/0123456789")
           []).
  reflexivity.
Defined.

(** C1 as the claim words it: a URL of 25 characters with the prefix does
    not pass "has the prefix and more than 50 characters", and
    [send_to_slack] posts to it all the same and returns [True]. *)
Lemma send_to_slack_short_url_counterexample :
  let webhook_url := py "https://hooks.slack.com/x" in
  let net : http := fun _ _ => Return {| status_code := 200; text := py "ok" |} in
  let run := send_to_slack (py "H") (py "F") net (py "S") (py "- a")
               webhook_url [] in
  url_accepted_by_spec webhook_url = false
  /\ fst run = Return true
  /\ map url (snd run) = [webhook_url].
Proof. vm_compute. repeat split. Qed.

(** C7.  Whenever [send_to_slack] reaches the POST, it sends exactly one
    request, to the webhook URL with a timeout of 30 seconds, and returns
    [True] exactly when that request comes back with status 200; any other
    status and any exception of the request (timeout, connection failure or
    another one) give [False], and no second request is sent. *)
Theorem send_to_slack_post_outcome (now_header now_footer : str)
    (net : http) (summary action_items webhook_url : str)
    (sent : list request) :
  startswith webhook_url WEBHOOK_PREFIX = true ->
  truthy (strip summary) || truthy (strip action_items) = true ->
  exists rq,
    url rq = webhook_url
    /\ timeout rq = 30
    /\ send_to_slack now_header now_footer net summary action_items
         webhook_url sent
       = (Return match net (length sent) rq with
                 | Return resp => (status_code resp =? 200)%Z
                 | Raise _ => false
                 end,
          sent ++ [rq]).
Proof.
  intros P C. apply send_to_slack_posts.
  - now rewrite P, (startswith_prefix_truthy _ P).
  - rewrite <- negb_orb, C. reflexivity.
Qed.

Lemma send_to_slack_post_outcome_witness :
  let net : http := fun n _ =>
    match n with
    | O => Return {| status_code := 404; text := py "no_service" |}
    | _ => Return {| status_code := 200; text := py "ok" |}
    end in
  let webhook_url := py "https://hooks.slack.com/services/T0/B0/X0" in
  exists rq,
    url rq = webhook_url
    /\ timeout rq = 30
    /\ send_to_slack (py "H") (py "F") net (py "S") (py "- a") webhook_url []
       = (Return match net (length ([] : list request)) rq with
                 | Return resp => (status_code resp =? 200)%Z
                 | Raise _ => false
                 end,
          [] ++ [rq]).
Proof.
  intros net webhook_url.
  apply (send_to_slack_post_outcome (py "H") (py "F") net (py "S") (py "- a")
           webhook_url []); reflexivity.
Defined.

Example send_to_slack_timeout :
  let net : http := fun _ _ => Raise Timeout in
  let run := send_to_slack (py "H") (py "F") net (py "S") []
               (py "https://hooks.slack.com/services/T0/B0/X0") [] in
  fst run = Return false /\ length (snd run) = 1%nat.
Proof. vm_compute. split; reflexivity. Qed.

(** C10.  For every summary, action-items string and webhook URL, and
    whatever the request does, [send_to_slack] returns a Boolean and raises
    nothing.  It returns [True] only after one request that came back with
    status 200; it returns [False] when a guard stopped it before any
    request, and when its one request raised or came back with another
    status. *)
Theorem send_to_slack_total (now_header now_footer : str)
    (net : http) (summary action_items webhook_url : str)
    (sent : list request) :
  let run := send_to_slack now_header now_footer net summary action_items
               webhook_url sent in
  exists b : bool,
    fst run = Return b
    /\ if b
       then exists rq resp,
              snd run = sent ++ [rq]
              /\ net (length sent) rq = Return resp
              /\ status_code resp = 200%Z
       else snd run = sent
            \/ exists rq,
                 snd run = sent ++ [rq]
                 /\ match net (length sent) rq with
                    | Return resp => status_code resp <> 200%Z
                    | Raise _ => True
                    end.
Proof.
  intros run. subst run.
  destruct (negb (truthy webhook_url)
            || negb (startswith webhook_url WEBHOOK_PREFIX)) eqn:G1.
  { exists false. rewrite send_to_slack_invalid_url by exact G1. auto. }
  destruct (negb (truthy (strip summary))
            && negb (truthy (strip action_items))) eqn:G2.
  { exists false. rewrite send_to_slack_no_content by assumption. auto. }
  destruct (send_to_slack_posts now_header now_footer net summary action_items
              webhook_url sent G1 G2) as (rq & _ & _ & ->).
  simpl. destruct (net (length sent) rq) as [resp|e] eqn:R.
  - destruct (Z.eqb_spec (status_code resp) 200) as [E|NE].
    + exists true. split; [reflexivity|]. exists rq, resp. auto.
    + exists false. split; [reflexivity|]. right. exists rq.
      split; [reflexivity|]. now rewrite R.
  - exists false. split; [reflexivity|]. right. exists rq.
    split; [reflexivity|]. now rewrite R.
Qed.

(** * Further properties *)

(** ** Trimming, splitting and joining *)

Lemma lstrip_fixed s : no_leading_space s = true -> lstrip s = s.
Proof.
  destruct s as [|c s]; simpl; [reflexivity|].
  now destruct (isspace c).
Qed.

Lemma lstrip_no_leading_space s : no_leading_space (lstrip s) = true.
Proof.
  induction s as [|c s IH]; simpl; [reflexivity|].
  destruct (isspace c) eqn:E; [exact IH|]. simpl. now rewrite E.
Qed.

Lemma lstrip_suffix s : exists p, s = p ++ lstrip s.
Proof.
  induction s as [|c s [p IH]]; simpl.
  - now exists [].
  - destruct (isspace c).
    + exists (c :: p). simpl. now rewrite <- IH.
    + now exists [].
Qed.

Lemma strip_prefix_of_lstrip s : exists q, lstrip s = strip s ++ q.
Proof.
  unfold strip, rstrip.
  destruct (lstrip_suffix (rev (lstrip s))) as [p Hp].
  exists (rev p).
  rewrite <- rev_app_distr, <- Hp. now rewrite rev_involutive.
Qed.

Lemma strip_In c s : In c (strip s) -> In c s.
Proof.
  intros H.
  destruct (strip_prefix_of_lstrip s) as [q Hq].
  destruct (lstrip_suffix s) as [p Hp].
  rewrite Hp, Hq. apply in_or_app. right. apply in_or_app. now left.
Qed.

Lemma strip_fixed s :
  no_leading_space s = true -> no_leading_space (rev s) = true ->
  strip s = s.
Proof.
  intros H1 H2. unfold strip, rstrip.
  now rewrite (lstrip_fixed s H1), (lstrip_fixed _ H2), rev_involutive.
Qed.

Lemma strip_no_trailing_space s : no_leading_space (rev (strip s)) = true.
Proof.
  unfold strip, rstrip. rewrite rev_involutive.
  apply lstrip_no_leading_space.
Qed.

Lemma strip_no_leading_space s : no_leading_space (strip s) = true.
Proof.
  destruct (strip_prefix_of_lstrip s) as [q Hq].
  pose proof (lstrip_no_leading_space s) as H.
  rewrite Hq in H. now destruct (strip s).
Qed.

Lemma strip_idempotent s : strip (strip s) = strip s.
Proof.
  apply strip_fixed;
    [apply strip_no_leading_space | apply strip_no_trailing_space].
Qed.

Lemma split_pieces_sep_free sep s : Forall (fun p => ~ In sep p) (split sep s).
Proof.
  induction s as [|c s IH]; simpl.
  - constructor; [intros []|constructor].
  - destruct (N.eqb_spec c sep) as [->|Hne].
    + constructor; [intros []|exact IH].
    + destruct (split sep s) as [|piece pieces].
      * constructor; [|constructor]. intros [E|[]]. congruence.
      * inversion IH as [|? ? Hp Hps]; subst.
        constructor; [|exact Hps]. intros [E|I]; [congruence|auto].
Qed.

Lemma split_sep_free sep p : ~ In sep p -> split sep p = [p].
Proof.
  induction p as [|c p IH]; simpl; intros H; [reflexivity|].
  destruct (N.eqb_spec c sep) as [->|Hne]; [exfalso; apply H; now left|].
  rewrite IH; [reflexivity|]. intros I. apply H. now right.
Qed.

Lemma split_app_sep sep p rest :
  ~ In sep p -> split sep (p ++ sep :: rest) = p :: split sep rest.
Proof.
  induction p as [|c p IH]; simpl; intros H.
  - now rewrite N.eqb_refl.
  - destruct (N.eqb_spec c sep) as [->|Hne]; [exfalso; apply H; now left|].
    rewrite IH; [reflexivity|]. intros I. apply H. now right.
Qed.

(** Splitting what [join] glued gives the pieces back. *)
Lemma split_join sep pieces :
  pieces <> [] -> Forall (fun p => ~ In sep p) pieces ->
  split sep (join [sep] pieces) = pieces.
Proof.
  induction pieces as [|p ps IH]; intros Hne Hall; [congruence|].
  inversion Hall as [|? ? Hp Hps]; subst.
  destruct ps as [|q ps].
  - simpl. now apply split_sep_free.
  - change (join [sep] (p :: q :: ps)) with (p ++ sep :: join [sep] (q :: ps)).
    rewrite split_app_sep by exact Hp.
    rewrite IH; [reflexivity | discriminate | exact Hps].
Qed.

Lemma no_leading_space_app s t :
  s <> [] -> no_leading_space s = true -> no_leading_space (s ++ t) = true.
Proof. now destruct s. Qed.

(** ** What the parser returns *)

Lemma glyph_not_space item :
  begins_with_glyph item = true -> no_leading_space item = true.
Proof.
  destruct item as [|c item]; simpl; [discriminate|].
  unfold bullet_glyphs. simpl.
  destruct (N.eqb_spec c HYPHEN) as [->|]; [reflexivity|].
  destruct (N.eqb_spec c BULLET) as [->|]; [reflexivity|].
  destruct (N.eqb_spec c ASTERISK) as [->|]; [reflexivity|].
  discriminate.
Qed.

Lemma line_rule_well_formed is_no none_yet line item :
  strip line = line -> lf_free line ->
  line_rule is_no none_yet line = Some item ->
  well_formed_item item.
Proof.
  intros Hs Hl. unfold line_rule.
  destruct line as [|c line]; [discriminate|]. cbn [truthy negb].
  destruct (begins_with_glyph (c :: line)) eqn:G.
  - intros [= <-]. repeat split; assumption.
  - destruct (none_yet && negb (is_no (c :: line))); [|discriminate].
    intros [= <-]. change (py "- ") with [HYPHEN; SPACE].
    repeat split.
    + apply strip_fixed; [reflexivity|].
      change (no_leading_space (rev ([HYPHEN; SPACE] ++ c :: line)) = true).
      rewrite rev_app_distr. apply no_leading_space_app.
      * intros E. apply (f_equal (@length N)) in E.
        rewrite length_rev in E. discriminate E.
      * rewrite <- Hs. apply strip_no_trailing_space.
    + intros [E|[E|I]]; [discriminate E | discriminate E | now apply Hl].
Qed.

Lemma items_by_rule_well_formed is_no lines : forall none_yet,
  Forall (fun line => strip line = line /\ lf_free line) lines ->
  Forall well_formed_item (items_by_rule is_no none_yet lines).
Proof.
  induction lines as [|line lines IH]; intros none_yet Hall; simpl.
  - constructor.
  - inversion Hall as [|? ? [Hs Hl] Hrest]; subst.
    destruct (line_rule is_no none_yet line) as [item|] eqn:R; [|auto].
    constructor; [|auto].
    now apply (line_rule_well_formed is_no none_yet line).
Qed.

Lemma trimmed_lines_trimmed text :
  Forall (fun line => strip line = line /\ lf_free line) (trimmed_lines text).
Proof.
  unfold trimmed_lines. apply Forall_map.
  eapply Forall_impl; [apply (split_pieces_sep_free LF)|].
  intros p Hp. simpl. split; [apply strip_idempotent|].
  intros I. apply Hp. now apply strip_In.
Qed.

Lemma parse_action_items_well_formed_aux text :
  Forall well_formed_item (parse_action_items text).
Proof.
  unfold parse_action_items. rewrite parse_loop. simpl.
  apply items_by_rule_well_formed, trimmed_lines_trimmed.
Qed.

(** X1.  Every action item the parser returns is one trimmed line: it
    begins with a glyph, has no whitespace at either end, and has no line
    feed in it. *)
Theorem parse_action_items_well_formed (text : str) :
  Forall well_formed_item (parse_action_items text).
Proof. apply parse_action_items_well_formed_aux. Qed.

Lemma well_formed_item_not_nil item : well_formed_item item -> item <> [].
Proof. intros (G & _ & _) ->. discriminate G. Qed.

Lemma join_not_nil sep p ps : p <> [] -> join sep (p :: ps) <> [].
Proof. destruct p; [congruence|]. now destruct ps. Qed.

Lemma join_no_trailing_space sep pieces :
  pieces <> [] ->
  Forall (fun p => p <> [] /\ no_leading_space (rev p) = true) pieces ->
  no_leading_space (rev (join sep pieces)) = true.
Proof.
  induction pieces as [|p ps IH]; intros Hne Hall; [congruence|].
  inversion Hall as [|? ? [Hp Hsp] Hps]; subst.
  destruct ps as [|q ps]; [exact Hsp|].
  change (join sep (p :: q :: ps)) with (p ++ sep ++ join sep (q :: ps)).
  rewrite !rev_app_distr, <- app_assoc.
  apply no_leading_space_app.
  - intros E. apply (f_equal (@rev N)) in E. rewrite rev_involutive in E.
    inversion Hps as [|? ? [Hq _] _]; subst.
    now apply (join_not_nil sep q ps).
  - apply IH; [discriminate | exact Hps].
Qed.

Lemma strip_join_well_formed items :
  Forall well_formed_item items -> strip (join [LF] items) = join [LF] items.
Proof.
  intros Hall. destruct items as [|item items]; [reflexivity|].
  apply strip_fixed.
  - inversion Hall as [|? ? Hi _]; subst.
    pose proof (well_formed_item_not_nil _ Hi) as Hne.
    destruct Hi as (G & _ & _). apply glyph_not_space in G.
    destruct items as [|next items]; [exact G|].
    change (join [LF] (item :: next :: items))
      with (item ++ [LF] ++ join [LF] (next :: items)).
    now apply no_leading_space_app.
  - apply join_no_trailing_space; [discriminate|].
    eapply Forall_impl; [exact Hall|].
    intros it Hi. split; [now apply well_formed_item_not_nil|].
    destruct Hi as (_ & S & _). rewrite <- S. apply strip_no_trailing_space.
Qed.

(** Lines that all begin with a glyph are all kept. *)
Lemma items_by_rule_all_glyphs is_no lines : forall none_yet,
  Forall (fun line => begins_with_glyph line = true) lines ->
  items_by_rule is_no none_yet lines = lines.
Proof.
  induction lines as [|line lines IH]; intros none_yet Hall; simpl;
    [reflexivity|].
  inversion Hall as [|? ? G Hrest]; subst.
  unfold line_rule. rewrite G.
  destruct line; [discriminate G|]. simpl. now rewrite IH.
Qed.

Lemma parse_well_formed_items items :
  Forall well_formed_item items ->
  parse_action_items (join [LF] items) = items.
Proof.
  intros Hall. unfold parse_action_items.
  rewrite strip_join_well_formed by exact Hall.
  destruct items as [|item items]; [reflexivity|].
  rewrite split_join.
  - rewrite parse_loop, app_nil_l.
    replace (map strip (item :: items)) with (item :: items).
    + apply items_by_rule_all_glyphs.
      eapply Forall_impl; [exact Hall|]. now intros it (G & _).
    + symmetry. rewrite <- (map_id (item :: items)) at 2.
      apply map_ext_Forall.
      eapply Forall_impl; [exact Hall|]. now intros it (_ & S & _).
  - discriminate.
  - eapply Forall_impl; [exact Hall|]. now intros it (_ & _ & L).
Qed.

(** X2.  Parsing is stable under its own output: the items of a response,
    written one per line, parse to the same items. *)
Theorem parse_action_items_reparse (text : str) :
  parse_action_items (join [LF] (parse_action_items text))
  = parse_action_items text.
Proof.
  apply parse_well_formed_items, parse_action_items_well_formed_aux.
Qed.

Lemma items_by_rule_blank_or_glyph is_no lines : forall none_yet,
  Forall (fun line => truthy line = false \/ begins_with_glyph line = true)
    lines ->
  items_by_rule is_no none_yet lines = List.filter truthy lines.
Proof.
  induction lines as [|line lines IH]; intros none_yet Hall; simpl;
    [reflexivity|].
  inversion Hall as [|? ? H Hrest]; subst.
  unfold line_rule. destruct H as [B|G].
  - rewrite B. simpl. now apply IH.
  - rewrite G. destruct line; [discriminate G|]. simpl. now rewrite IH.
Qed.

(** X3.  A response in which every non-blank line begins with a glyph is
    returned whole: the items are its non-blank lines, trimmed, in
    order. *)
Theorem parse_action_items_all_bulleted (text : str) :
  Forall (fun line => truthy line = false \/ begins_with_glyph line = true)
    (trimmed_lines text) ->
  parse_action_items text = List.filter truthy (trimmed_lines text).
Proof.
  intros H. unfold parse_action_items. rewrite parse_loop, app_nil_l.
  now apply items_by_rule_blank_or_glyph.
Qed.

Lemma parse_action_items_all_bulleted_witness :
  let text := py " - a " ++ [LF; LF] ++ py "* b" ++ [LF] in
  parse_action_items text = List.filter truthy (trimmed_lines text).
Proof.
  intros text. apply (parse_action_items_all_bulleted text).
  vm_compute.
  repeat (constructor; [first [left; reflexivity | right; reflexivity]|]).
  constructor.
Defined.

Lemma items_by_rule_no_glyph is_no lines : forall none_yet,
  Forall (fun line => begins_with_glyph line = false) lines ->
  (length (items_by_rule is_no none_yet lines) <= 1)%nat
  /\ (none_yet = false -> items_by_rule is_no none_yet lines = []).
Proof.
  induction lines as [|line lines IH]; intros none_yet Hall; simpl.
  - split; [lia | reflexivity].
  - inversion Hall as [|? ? G Hrest]; subst.
    unfold line_rule. rewrite G.
    destruct (negb (truthy line)); [now apply IH|].
    destruct none_yet; simpl.
    + destruct (negb (is_no line)); [|now apply IH].
      destruct (IH false Hrest) as [_ E]. rewrite (E eq_refl).
      split; [simpl; lia | discriminate].
    + now apply IH.
Qed.

(** X4.  A response without any line that begins with a glyph gives at
    most one action item, however many lines it has: only the first plain
    line can be taken. *)
Theorem parse_action_items_unbulleted (text : str) :
  Forall (fun line => begins_with_glyph line = false) (trimmed_lines text) ->
  (length (parse_action_items text) <= 1)%nat.
Proof.
  intros H. unfold parse_action_items. rewrite parse_loop, app_nil_l.
  now apply items_by_rule_no_glyph.
Qed.

Lemma parse_action_items_unbulleted_witness :
  let text := py "Alice sends the report" ++ [LF] ++ py "Bob books a room"
              ++ [LF] ++ py "Carol calls the client" in
  (length (parse_action_items text) <= 1)%nat.
Proof.
  intros text. apply (parse_action_items_unbulleted text).
  vm_compute. repeat constructor.
Defined.

(** ** More on trimming: blank strings *)

Lemma lstrip_blank_prefix s :
  exists p, s = p ++ lstrip s /\ whitespace_only p = true.
Proof.
  induction s as [|c s (p & IH & W)]; simpl.
  - now exists [].
  - destruct (isspace c) eqn:E.
    + exists (c :: p). simpl. rewrite E, W. now rewrite <- IH.
    + now exists [].
Qed.

Lemma whitespace_only_app s t :
  whitespace_only (s ++ t) = whitespace_only s && whitespace_only t.
Proof. apply forallb_app. Qed.

Lemma whitespace_only_rev s : whitespace_only (rev s) = whitespace_only s.
Proof.
  induction s as [|c s IH]; [reflexivity|].
  simpl rev. rewrite whitespace_only_app, IH. simpl.
  now rewrite andb_true_r, andb_comm.
Qed.

Lemma no_leading_space_blank s :
  no_leading_space s = true -> whitespace_only s = true -> s = [].
Proof.
  destruct s as [|c s]; [reflexivity|]. simpl.
  now destruct (isspace c).
Qed.

(** [s.strip()] is empty exactly for the blank strings. *)
Lemma strip_nil_blank s : strip s = [] -> whitespace_only s = true.
Proof.
  intros H. unfold strip, rstrip in H.
  apply (f_equal (@rev N)) in H. rewrite rev_involutive in H. simpl in H.
  destruct (lstrip_blank_prefix (rev (lstrip s))) as (p & Hp & Wp).
  rewrite H, app_nil_r in Hp.
  assert (L : lstrip s = []).
  { apply no_leading_space_blank; [apply lstrip_no_leading_space|].
    rewrite <- whitespace_only_rev, Hp. exact Wp. }
  destruct (lstrip_blank_prefix s) as (q & Hq & Wq).
  rewrite L, app_nil_r in Hq. now rewrite Hq.
Qed.

Lemma split_In sep s : forall piece c,
  In piece (split sep s) -> In c piece -> In c s.
Proof.
  induction s as [|a s IH]; simpl; intros piece c Hp Hc.
  - destruct Hp as [<-|[]]. destruct Hc.
  - destruct (a =? sep).
    + destruct Hp as [<-|Hp]; [destruct Hc|]. right. eauto.
    + destruct (split sep s) as [|first rest] eqn:E.
      * destruct Hp as [<-|[]]. destruct Hc as [->|[]]. now left.
      * destruct Hp as [<-|Hp].
        -- destruct Hc as [->|Hc]; [now left|]. right.
           apply (IH first); [now left | exact Hc].
        -- right. apply (IH piece); [now right | exact Hc].
Qed.

Lemma whitespace_only_In s :
  whitespace_only s = true <-> forall c, In c s -> isspace c = true.
Proof. apply forallb_forall. Qed.

Lemma filter_none {A} (f : A -> bool) (l : list A) :
  (forall x, In x l -> f x = false) -> List.filter f l = [].
Proof.
  induction l as [|x l IH]; intros H; simpl; [reflexivity|].
  rewrite (H x) by now left. apply IH. intros y Hy. apply H. now right.
Qed.

Lemma nonblank_lines_blank action_items :
  strip action_items = [] -> nonblank_lines action_items = [].
Proof.
  intros H. apply strip_nil_blank in H.
  unfold nonblank_lines.
  replace (List.filter (fun item => truthy (strip item))
             (split LF action_items)) with (@nil str); [reflexivity|].
  symmetry. apply filter_none. intros piece Hp.
  rewrite strip_whitespace_only; [reflexivity|].
  apply whitespace_only_In. intros c Hc.
  apply (proj1 (whitespace_only_In action_items) H).
  now apply (split_In LF action_items piece).
Qed.

(** ** The message of the webhook notifier *)

Lemma truthy_join_bullet_lines items :
  truthy (join [LF] (map bullet_line items)) = negb (is_nil items).
Proof.
  destruct items as [|item items]; [reflexivity|].
  simpl map. now destruct (map bullet_line items).
Qed.

(** Past both guards, the one request carries the blocks of
    [slack_blocks] over the non-blank lines of the action-items string. *)
Lemma send_to_slack_request now_header now_footer net summary action_items
    webhook_url sent :
  startswith webhook_url WEBHOOK_PREFIX = true ->
  truthy (strip summary) || truthy (strip action_items) = true ->
  let rq := {| url := webhook_url;
               json := slack_blocks now_header now_footer summary
                         (map bullet_line (nonblank_lines action_items));
               timeout := 30;
               headers := [("Content-Type", "application/json")] |} in
  send_to_slack now_header now_footer net summary action_items webhook_url sent
  = (Return match net (length sent) rq with
            | Return resp => (status_code resp =? 200)%Z
            | Raise _ => false
            end,
     sent ++ [rq]).
Proof.
  intros P C rq. subst rq.
  unfold send_to_slack, try_except.
  rewrite P, (startswith_prefix_truthy _ P).
  rewrite <- negb_orb, C. cbn [negb orb].
  change (fun item : str =>
            [BULLET; SPACE] ++ lstrip_chars [HYPHEN; SPACE; BULLET; ASTERISK] item)
    with bullet_line.
  change (map strip
            (List.filter (fun item : str => truthy (strip item))
               (split LF action_items)))
    with (nonblank_lines action_items).
  unfold bind, post, ret.
  assert (NB : truthy (strip action_items) = false ->
               nonblank_lines action_items = []).
  { intros T. apply nonblank_lines_blank. now destruct (strip action_items). }
  unfold slack_blocks.
  destruct (truthy (strip action_items)) eqn:T.
  - rewrite truthy_join_bullet_lines.
    destruct (nonblank_lines action_items) as [|l ls]; simpl map;
      simpl is_nil; cbn [negb];
      (destruct (net _ _) as [resp|e]; [|now destruct e]);
      now destruct (status_code resp =? 200)%Z.
  - rewrite (NB eq_refl). simpl map. cbn [truthy].
    destruct (net _ _) as [resp|e]; [|now destruct e].
    now destruct (status_code resp =? 200)%Z.
Qed.

Example str_of_int_values :
  Probe.str_of_int 404 = py "404" /\ Probe.str_of_int 0 = py "0"
  /\ Probe.str_of_int (-7) = py "-7".
Proof. vm_compute. auto. Qed.

(** X5.  With a summary and an action-items string that are both blank,
    [send_to_slack] returns [False] and sends no request, whatever the
    URL. *)
Theorem send_to_slack_blank_content (now_header now_footer : str)
    (net : http) (summary action_items webhook_url : str)
    (sent : list request) :
  whitespace_only summary = true ->
  whitespace_only action_items = true ->
  send_to_slack now_header now_footer net summary action_items webhook_url sent
  = (Return false, sent).
Proof.
  intros Hs Ha.
  destruct (negb (truthy webhook_url)
            || negb (startswith webhook_url WEBHOOK_PREFIX)) eqn:G.
  - now apply send_to_slack_invalid_url.
  - apply send_to_slack_no_content; [exact G|].
    now rewrite !strip_whitespace_only.
Qed.

Lemma send_to_slack_blank_content_witness :
  let net : http := fun _ _ => Return {| status_code := 200; text := py "ok" |} in
  send_to_slack (py "H") (py "F") net [SPACE; 9] [LF; SPACE; LF]
    (py "https://hooks.slack.com/services/T0/B0/X0") []
  = (Return false, []).
Proof.
  intros net.
  apply (send_to_slack_blank_content (py "H") (py "F") net [SPACE; 9]
           [LF; SPACE; LF] (py "https://hooks.slack.com/services/T0/B0/X0") []);
    reflexivity.
Defined.

Lemma lstrip_chars_head chars s :
  match lstrip_chars chars s with
  | c :: _ => ~ In c chars
  | [] => True
  end.
Proof.
  induction s as [|c s IH]; simpl; [exact I|].
  destruct (existsb (N.eqb c) chars) eqn:E; [exact IH|].
  intros Hin.
  assert (existsb (N.eqb c) chars = true); [|congruence].
  apply existsb_exists. exists c. split; [exact Hin | apply N.eqb_refl].
Qed.

Lemma bullet_line_canonical item : canonical_line (bullet_line item).
Proof.
  exists (lstrip_chars LEADING item). split; [reflexivity|].
  apply lstrip_chars_head.
Qed.

Lemma lstrip_chars_In chars s c : In c (lstrip_chars chars s) -> In c s.
Proof.
  induction s as [|a s IH]; simpl; [auto|].
  destruct (existsb (N.eqb a) chars); [|auto].
  intros H. right. now apply IH.
Qed.

Lemma bullet_line_lf_free item : lf_free item -> lf_free (bullet_line item).
Proof.
  intros H [E|[E|I]]; [discriminate E | discriminate E |].
  apply H. now apply (lstrip_chars_In LEADING).
Qed.

Lemma nonblank_lines_lf_free action_items :
  Forall lf_free (nonblank_lines action_items).
Proof.
  unfold nonblank_lines. apply Forall_map, Forall_forall.
  intros piece Hp. apply list_elem_of_In in Hp.
  apply List.filter_In in Hp as [Hp _].
  pose proof (split_pieces_sep_free LF action_items) as F.
  apply (proj1 (List.Forall_forall _ _) F) in Hp.
  intros I. apply Hp. now apply strip_In.
Qed.

(** X6.  The message [send_to_slack] posts has, in its action-items
    section, exactly one line for each non-blank line of the action-items
    string, in order: the trimmed line with its leading run of [-], space,
    U+2022 and [*] replaced by a single bullet and a space.  Each of these
    lines is in canonical form, whatever glyphs the line came with, and has
    no line feed in it, so that the lines of the section are these lines
    and no others. *)
Theorem send_to_slack_canonical_bullets (now_header now_footer : str)
    (net : http) (summary action_items webhook_url : str)
    (sent : list request) :
  startswith webhook_url WEBHOOK_PREFIX = true ->
  truthy (strip summary) || truthy (strip action_items) = true ->
  let items :=
    map strip
      (List.filter (fun item => truthy (strip item)) (split LF action_items)) in
  let lines :=
    map (fun item => [BULLET; SPACE] ++ lstrip_chars LEADING item) items in
  exists rq,
    snd (send_to_slack now_header now_footer net summary action_items
           webhook_url sent) = sent ++ [rq]
    /\ json rq = slack_blocks now_header now_footer summary lines
    /\ Forall (fun line => canonical_line line /\ lf_free line) lines
    /\ split LF (join [LF] lines)
       = match lines with [] => [[]] | _ :: _ => lines end.
Proof.
  intros P C items lines.
  change items with (nonblank_lines action_items) in *.
  change lines with (map bullet_line (nonblank_lines action_items)) in *.
  clear items lines.
  rewrite (send_to_slack_request _ _ _ _ _ _ _ P C).
  assert (F : Forall (fun line => canonical_line line /\ lf_free line)
                (map bullet_line (nonblank_lines action_items))).
  { apply Forall_map.
    eapply Forall_impl; [apply nonblank_lines_lf_free|].
    intros item L. split;
      [apply bullet_line_canonical | now apply bullet_line_lf_free]. }
  eexists. split; [reflexivity|]. split; [reflexivity|]. split; [exact F|].
  destruct (map bullet_line (nonblank_lines action_items)) as [|l ls] eqn:E;
    [reflexivity|].
  apply split_join; [discriminate|].
  eapply Forall_impl; [exact F|]. now intros line [_ L].
Qed.

Lemma send_to_slack_canonical_bullets_witness :
  let net : http := fun _ _ => Return {| status_code := 200; text := py "ok" |} in
  let action_items := py "-- a" ++ [LF; LF] ++ py "* - b" in
  let webhook_url := py "https://hooks.slack.com/services/T0/B0/X0" in
  let items :=
    map strip
      (List.filter (fun item => truthy (strip item)) (split LF action_items)) in
  let lines :=
    map (fun item => [BULLET; SPACE] ++ lstrip_chars LEADING item) items in
  exists rq,
    snd (send_to_slack (py "H") (py "F") net (py "S") action_items
           webhook_url []) = [] ++ [rq]
    /\ json rq = slack_blocks (py "H") (py "F") (py "S") lines
    /\ Forall (fun line => canonical_line line /\ lf_free line) lines
    /\ split LF (join [LF] lines)
       = match lines with [] => [[]] | _ :: _ => lines end.
Proof.
  intros net action_items webhook_url.
  apply (send_to_slack_canonical_bullets (py "H") (py "F") net (py "S")
           action_items webhook_url []); reflexivity.
Defined.

Example send_to_slack_bullets_example :
  map (fun item => [BULLET; SPACE] ++ lstrip_chars LEADING item)
    (nonblank_lines (py "-- a" ++ [LF; LF] ++ py "  * - b " ++ [LF] ++ py "c"))
  = [[BULLET; SPACE] ++ py "a"; [BULLET; SPACE] ++ py "b";
     [BULLET; SPACE] ++ py "c"].
Proof. vm_compute. reflexivity. Qed.

Lemma nonblank_lines_join items :
  Forall well_formed_item items -> nonblank_lines (join [LF] items) = items.
Proof.
  intros Hall. destruct items as [|item items]; [reflexivity|].
  unfold nonblank_lines. rewrite split_join.
  - assert (K : forall l, Forall well_formed_item l ->
        map strip (List.filter (fun it => truthy (strip it)) l) = l).
    { induction l as [|x l IH]; intros H; simpl; [reflexivity|].
      inversion H as [|? ? Hx Hl]; subst.
      pose proof (well_formed_item_not_nil _ Hx) as Hne.
      destruct Hx as (_ & S & _). rewrite S.
      destruct x; [congruence|]. simpl. rewrite S. now rewrite IH. }
    now apply K.
  - discriminate.
  - eapply Forall_impl; [exact Hall|]. now intros it (_ & _ & L).
Qed.

(** X7.  When the action items of the parser are shared the way the
    application does it, joined by line feeds, every item becomes one line
    of the action-items section of the posted message, in order. *)
Theorem send_to_slack_parsed_items (now_header now_footer : str)
    (net : http) (summary webhook_url text : str) (sent : list request) :
  startswith webhook_url WEBHOOK_PREFIX = true ->
  parse_action_items text <> [] ->
  exists rq,
    snd (send_to_slack now_header now_footer net summary
           (join [LF] (parse_action_items text)) webhook_url sent)
    = sent ++ [rq]
    /\ json rq = slack_blocks now_header now_footer summary
                   (map bullet_line (parse_action_items text)).
Proof.
  intros P Hne.
  pose proof (parse_action_items_well_formed_aux text) as W.
  assert (C : truthy (strip summary)
              || truthy (strip (join [LF] (parse_action_items text))) = true).
  { rewrite strip_join_well_formed by exact W.
    destruct (parse_action_items text) as [|item items]; [congruence|].
    inversion W as [|? ? Hi _]; subst.
    apply well_formed_item_not_nil in Hi.
    pose proof (join_not_nil [LF] item items Hi) as J.
    destruct (join [LF] (item :: items)) eqn:E; [destruct (J E)|].
    apply orb_true_r. }
  rewrite (send_to_slack_request _ _ _ _ _ _ _ P C).
  eexists. split; [reflexivity|]. simpl json.
  now rewrite nonblank_lines_join.
Qed.

Lemma send_to_slack_parsed_items_witness :
  let net : http := fun _ _ => Return {| status_code := 200; text := py "ok" |} in
  let text := py "Follow up" ++ [LF] ++ py "* Send it" in
  let webhook_url := py "https://hooks.slack.com/services/T0/B0/X0" in
  exists rq,
    snd (send_to_slack (py "H") (py "F") net (py "S")
           (join [LF] (parse_action_items text)) webhook_url [])
    = [] ++ [rq]
    /\ json rq = slack_blocks (py "H") (py "F") (py "S")
                   (map bullet_line (parse_action_items text)).
Proof.
  intros net text webhook_url.
  apply (send_to_slack_parsed_items (py "H") (py "F") net (py "S")
           webhook_url text []); [reflexivity|].
  vm_compute. discriminate.
Defined.

Lemma validate_webhook_url_prefix webhook_url :
  validate_webhook_url webhook_url = true ->
  startswith webhook_url WEBHOOK_PREFIX = true
  /\ (50 < length webhook_url)%nat.
Proof.
  unfold validate_webhook_url.
  destruct (negb (truthy webhook_url)); [discriminate|].
  intros [P L]%andb_true_iff. split; [exact P|].
  now apply Nat.ltb_lt.
Qed.

(** X8.  A URL that [validate_webhook_url] accepts passes the guard of
    [send_to_slack]: with something to send, exactly one request is posted
    to that URL. *)
Theorem validated_url_is_posted_to (now_header now_footer : str)
    (net : http) (summary action_items webhook_url : str)
    (sent : list request) :
  validate_webhook_url webhook_url = true ->
  truthy (strip summary) || truthy (strip action_items) = true ->
  exists rq,
    url rq = webhook_url
    /\ snd (send_to_slack now_header now_footer net summary action_items
              webhook_url sent) = sent ++ [rq].
Proof.
  intros V C. apply validate_webhook_url_prefix in V as [P _].
  rewrite (send_to_slack_request _ _ _ _ _ _ _ P C).
  eexists. split; [|reflexivity]. reflexivity.
Qed.

Lemma validated_url_is_posted_to_witness :
  let net : http := fun _ _ => Raise Timeout in
  let webhook_url :=
    py "https://hooks.slack.com/services/T00000000/B00000000/XXXXXXXX" in
  exists rq,
    url rq = webhook_url
    /\ snd (send_to_slack (py "H") (py "F") net (py "S") [] webhook_url [])
       = [] ++ [rq].
Proof.
  intros net webhook_url.
  apply (validated_url_is_posted_to (py "H") (py "F") net (py "S") []
           webhook_url []); reflexivity.
Defined.

(** ** The connectivity probe *)

(** X9.  For a URL that [validate_webhook_url] refuses (empty, without the
    prefix, or of 50 characters or fewer) [test_slack_connection] answers
    [(False, "Invalid webhook URL format")] and sends no request. *)
Theorem test_slack_connection_invalid_url (describe : exn -> str)
    (net : Probe.http) (webhook_url : str) (sent : list Probe.request) :
  validate_webhook_url webhook_url = false ->
  Probe.test_slack_connection describe net webhook_url sent
  = (Return (false, py "Invalid webhook URL format"), sent).
Proof.
  intros V. unfold Probe.test_slack_connection, try_except. now rewrite V.
Qed.

Lemma test_slack_connection_invalid_url_witness :
  let net : Probe.http :=
    fun _ _ => Return {| status_code := 200; text := py "ok" |} in
  Probe.test_slack_connection (fun _ => py "error") net
    (py "https://hooks.slack.com/x") []
  = (Return (false, py "Invalid webhook URL format"), []).
Proof.
  intros net.
  apply (test_slack_connection_invalid_url (fun _ => py "error") net
           (py "https://hooks.slack.com/x") []).
  reflexivity.
Defined.

(** X10.  For a URL that [validate_webhook_url] accepts,
    [test_slack_connection] sends exactly one request, to that URL with a
    timeout of 10 seconds, and raises nothing: it answers [True] with
    "Connection successful" on status 200, [False] with the status and the
    body on any other status, and [False] with the text of the exception
    when the request raises. *)
Theorem test_slack_connection_valid_url (describe : exn -> str)
    (net : Probe.http) (webhook_url : str) (sent : list Probe.request) :
  validate_webhook_url webhook_url = true ->
  exists rq,
    Probe.url rq = webhook_url
    /\ Probe.timeout rq = 10
    /\ Probe.test_slack_connection describe net webhook_url sent
       = (Return
            match net (length sent) rq with
            | Return resp =>
                if (status_code resp =? 200)%Z
                then (true, py "Connection successful")
                else (false,
                      py "HTTP " ++ Probe.str_of_int (status_code resp)
                      ++ py ": " ++ text resp)
            | Raise e => (false, py "Connection failed: " ++ describe e)
            end,
          sent ++ [rq]).
Proof.
  intros V. unfold Probe.test_slack_connection, try_except. rewrite V.
  cbn [negb]. unfold bind, Probe.post, ret.
  match goal with |- context [net (length sent) ?r] => exists r end.
  repeat split.
  destruct (net (length sent) _) as [resp|e]; [|reflexivity].
  now destruct (status_code resp =? 200)%Z.
Qed.

Lemma test_slack_connection_valid_url_witness :
  let net : Probe.http :=
    fun _ _ => Return {| status_code := 404; text := py "no_team" |} in
  let webhook_url :=
    py "https://hooks.slack.com/services/T00000000/B00000000/XXXXXXXX" in
  let describe : exn -> str := fun _ => py "error" in
  exists rq,
    Probe.url rq = webhook_url
    /\ Probe.timeout rq = 10
    /\ Probe.test_slack_connection describe net webhook_url []
       = (Return
            match net (length ([] : list Probe.request)) rq with
            | Return resp =>
                if (status_code resp =? 200)%Z
                then (true, py "Connection successful")
                else (false,
                      py "HTTP " ++ Probe.str_of_int (status_code resp)
                      ++ py ": " ++ text resp)
            | Raise e => (false, py "Connection failed: " ++ describe e)
            end,
          [] ++ [rq]).
Proof.
  intros net webhook_url describe.
  apply (test_slack_connection_valid_url describe net webhook_url []).
  reflexivity.
Defined.

Example test_slack_connection_http_error :
  let net : Probe.http :=
    fun _ _ => Return {| status_code := 404; text := py "no_team" |} in
  fst (Probe.test_slack_connection (fun _ => py "error") net
         (py "https://hooks.slack.com/services/T00000000/B00000000/XXXXXXXX")
         [])
  = Return (false, py "HTTP 404: no_team").
Proof. vm_compute. reflexivity. Qed.

(** X11.  The two entry points do not agree on short URLs: one that has the
    prefix and at most 50 characters is refused by [test_slack_connection]
    without a request, and [send_to_slack], given something to send, posts
    to it. *)
Theorem short_url_probe_refuses_send_posts (describe : exn -> str)
    (probe_net : Probe.http) (probed : list Probe.request)
    (now_header now_footer : str) (net : http)
    (summary action_items webhook_url : str) (sent : list request) :
  startswith webhook_url WEBHOOK_PREFIX = true ->
  (length webhook_url <= 50)%nat ->
  truthy (strip summary) || truthy (strip action_items) = true ->
  Probe.test_slack_connection describe probe_net webhook_url probed
  = (Return (false, py "Invalid webhook URL format"), probed)
  /\ exists rq,
       url rq = webhook_url
       /\ snd (send_to_slack now_header now_footer net summary action_items
                 webhook_url sent) = sent ++ [rq].
Proof.
  intros P L C. split.
  - unfold Probe.test_slack_connection, try_except, validate_webhook_url.
    rewrite P, (startswith_prefix_truthy _ P). cbn [negb andb].
    replace (50 <? length webhook_url)%nat with false; [reflexivity|].
    symmetry. apply Nat.ltb_ge. exact L.
  - rewrite (send_to_slack_request _ _ _ _ _ _ _ P C).
    eexists. split; [|reflexivity]. reflexivity.
Qed.

Lemma short_url_probe_refuses_send_posts_witness :
  let probe_net : Probe.http :=
    fun _ _ => Return {| status_code := 200; text := py "ok" |} in
  let net : http := fun _ _ => Return {| status_code := 200; text := py "ok" |} in
  let webhook_url := py "https://hooks.slack.com/services/T0/B0" in
  Probe.test_slack_connection (fun _ => py "error") probe_net webhook_url []
  = (Return (false, py "Invalid webhook URL format"), [])
  /\ exists rq,
       url rq = webhook_url
       /\ snd (send_to_slack (py "H") (py "F") net (py "S") (py "- a")
                 webhook_url []) = [] ++ [rq].
Proof.
  intros probe_net net webhook_url.
  apply (short_url_probe_refuses_send_posts (fun _ => py "error") probe_net []
           (py "H") (py "F") net (py "S") (py "- a") webhook_url []).
  - reflexivity.
  - vm_compute. lia.
  - reflexivity.
Defined.

(** ** The two generation requests *)

Section Generation.

Variables (cfg : config) (gemini : model).
Variables (transcript : str) (meeting_type : string) (sent : list str).

Let summary_prompt := fst (prompts_for cfg meeting_type transcript).
Let action_prompt := snd (prompts_for cfg meeting_type transcript).

Hypothesis nonblank : truthy (strip transcript) = true.

Lemma generate_first_fails_aux e :
  gemini (length sent) summary_prompt = Raise e ->
  generate_summary_and_actions cfg gemini transcript meeting_type sent
  = (Raise e, sent ++ [summary_prompt]).
Proof.
  subst summary_prompt action_prompt. unfold prompts_for.
  unfold generate_summary_and_actions, try_except. rewrite nonblank.
  cbn [negb].
  destruct (MEETING_TYPE_PROMPTS cfg !! meeting_type) as [prompts|];
    unfold bind, generate_content, raise; simpl fst; intros ->; reflexivity.
Qed.

Lemma generate_second_fails_aux summary_text e :
  gemini (length sent) summary_prompt = Return summary_text ->
  gemini (S (length sent)) action_prompt = Raise e ->
  generate_summary_and_actions cfg gemini transcript meeting_type sent
  = (Raise e, sent ++ [summary_prompt; action_prompt]).
Proof.
  subst summary_prompt action_prompt. unfold prompts_for.
  unfold generate_summary_and_actions, try_except. rewrite nonblank.
  cbn [negb].
  destruct (MEETING_TYPE_PROMPTS cfg !! meeting_type) as [prompts|];
    unfold bind, generate_content, raise; simpl fst; simpl snd;
    intros -> H; rewrite length_app, Nat.add_1_r, H, <- app_assoc;
    reflexivity.
Qed.

Lemma generate_succeeds_aux summary_text action_text :
  gemini (length sent) summary_prompt = Return summary_text ->
  gemini (S (length sent)) action_prompt = Return action_text ->
  generate_summary_and_actions cfg gemini transcript meeting_type sent
  = (Return (strip summary_text, parse_action_items action_text),
     sent ++ [summary_prompt; action_prompt]).
Proof.
  subst summary_prompt action_prompt. unfold prompts_for.
  unfold generate_summary_and_actions, try_except. rewrite nonblank.
  cbn [negb].
  destruct (MEETING_TYPE_PROMPTS cfg !! meeting_type) as [prompts|];
    unfold bind, generate_content, ret; simpl fst; simpl snd;
    intros -> H; rewrite length_app, Nat.add_1_r, H, <- app_assoc;
    reflexivity.
Qed.

End Generation.

(** X12.  When the summary request fails, [generate_summary_and_actions]
    raises that exception unchanged and never issues the action-items
    request: one prompt has been sent. *)
Theorem generate_summary_failure (cfg : config) (gemini : model)
    (transcript : str) (meeting_type : string) (sent : list str) (e : exn) :
  truthy (strip transcript) = true ->
  gemini (length sent) (fst (prompts_for cfg meeting_type transcript))
  = Raise e ->
  generate_summary_and_actions cfg gemini transcript meeting_type sent
  = (Raise e, sent ++ [fst (prompts_for cfg meeting_type transcript)]).
Proof. intros N H. now apply generate_first_fails_aux. Qed.

(** X13.  When the action-items request fails after the summary request
    succeeded, the exception is raised unchanged and the summary already
    obtained is not returned: there is no partial result. *)
Theorem generate_actions_failure (cfg : config) (gemini : model)
    (transcript : str) (meeting_type : string) (sent : list str)
    (summary_text : str) (e : exn) :
  truthy (strip transcript) = true ->
  gemini (length sent) (fst (prompts_for cfg meeting_type transcript))
  = Return summary_text ->
  gemini (S (length sent)) (snd (prompts_for cfg meeting_type transcript))
  = Raise e ->
  generate_summary_and_actions cfg gemini transcript meeting_type sent
  = (Raise e,
     sent ++ [fst (prompts_for cfg meeting_type transcript);
              snd (prompts_for cfg meeting_type transcript)]).
Proof. intros N H1 H2. now apply (generate_second_fails_aux _ _ _ _ _ N summary_text). Qed.

(** X14.  When both requests succeed, exactly two prompts have been sent,
    the summary prompt first, and the result is clean: the summary has no
    whitespace at either end, and every action item is one trimmed line
    that begins with a glyph. *)
Theorem generate_success_result (cfg : config) (gemini : model)
    (transcript : str) (meeting_type : string) (sent : list str)
    (summary_text action_text : str) :
  truthy (strip transcript) = true ->
  gemini (length sent) (fst (prompts_for cfg meeting_type transcript))
  = Return summary_text ->
  gemini (S (length sent)) (snd (prompts_for cfg meeting_type transcript))
  = Return action_text ->
  exists summary action_items,
    generate_summary_and_actions cfg gemini transcript meeting_type sent
    = (Return (summary, action_items),
       sent ++ [fst (prompts_for cfg meeting_type transcript);
                snd (prompts_for cfg meeting_type transcript)])
    /\ strip summary = summary
    /\ Forall well_formed_item action_items.
Proof.
  intros N H1 H2.
  exists (strip summary_text), (parse_action_items action_text).
  split; [now apply generate_succeeds_aux|].
  split; [apply strip_idempotent | apply parse_action_items_well_formed_aux].
Qed.

Lemma generate_summary_failure_witness :
  let cfg := {| SUMMARIZATION_PROMPT := [Lit (py "S: "); TranscriptField];
                ACTION_ITEMS_PROMPT := [Lit (py "A: "); TranscriptField];
                MEETING_TYPE_PROMPTS := ∅ |} in
  let gemini : model := fun _ _ => Raise (LibraryError "quota") in
  generate_summary_and_actions cfg gemini (py "t") "general" []
  = (Raise (LibraryError "quota"),
     [] ++ [fst (prompts_for cfg "general" (py "t"))]).
Proof.
  intros cfg gemini.
  apply (generate_summary_failure cfg gemini (py "t") "general" []);
    reflexivity.
Defined.

Lemma generate_actions_failure_witness :
  let cfg := {| SUMMARIZATION_PROMPT := [Lit (py "S: "); TranscriptField];
                ACTION_ITEMS_PROMPT := [Lit (py "A: "); TranscriptField];
                MEETING_TYPE_PROMPTS := ∅ |} in
  let gemini : model := fun n _ =>
    match n with
    | O => Return (py "sum")
    | _ => Raise (LibraryError "quota")
    end in
  generate_summary_and_actions cfg gemini (py "t") "general" []
  = (Raise (LibraryError "quota"),
     [] ++ [fst (prompts_for cfg "general" (py "t"));
            snd (prompts_for cfg "general" (py "t"))]).
Proof.
  intros cfg gemini.
  apply (generate_actions_failure cfg gemini (py "t") "general" [] (py "sum"));
    reflexivity.
Defined.

Lemma generate_success_result_witness :
  let cfg := {| SUMMARIZATION_PROMPT := [Lit (py "S: "); TranscriptField];
                ACTION_ITEMS_PROMPT := [Lit (py "A: "); TranscriptField];
                MEETING_TYPE_PROMPTS :=
                  {[ "standup" :=
                       {| summary_template := [Lit (py "SS: "); TranscriptField];
                          actions_template := [Lit (py "SA: "); TranscriptField] |} ]} |} in
  let gemini : model := fun n _ =>
    match n with
    | O => Return (py " sum ")
    | _ => Return (py "do x" ++ [LF] ++ py "- do y ")
    end in
  exists summary action_items,
    generate_summary_and_actions cfg gemini (py "t") "standup" []
    = (Return (summary, action_items),
       [] ++ [fst (prompts_for cfg "standup" (py "t"));
              snd (prompts_for cfg "standup" (py "t"))])
    /\ strip summary = summary
    /\ Forall well_formed_item action_items.
Proof.
  intros cfg gemini.
  apply (generate_success_result cfg gemini (py "t") "standup" []
           (py " sum ") (py "do x" ++ [LF] ++ py "- do y "));
    reflexivity.
Defined.

(** ** Audio extraction: every way out *)

Ltac map_lookup :=
  repeat first
    [ rewrite lookup_delete_eq
    | rewrite lookup_insert_eq
    | rewrite lookup_delete_ne by congruence
    | rewrite lookup_insert_ne by congruence ].

(** The handler's loop when both locals are bound. *)
Lemma cleanup_bound (m : gmap string (list N)) (v a : string) :
  cleanup {| fs := m; tmp_video_path := Some v; tmp_audio_path := Some a |}
  = (Return tt,
     {| fs := delete a (delete v m);
        tmp_video_path := Some v; tmp_audio_path := Some a |}).
Proof.
  unfold cleanup, bind, get, ret, unlink, modify, exists_; simpl.
  unfold bind, ret; simpl.
  destruct (m !! v) eqn:Ev; simpl.
  - destruct (delete v m !! a) eqn:Ea; simpl; [reflexivity|].
    now rewrite (delete_id _ _ Ea).
  - destruct (m !! a) eqn:Ea; simpl.
    + now rewrite (delete_id _ _ Ev).
    + rewrite (delete_id _ _ Ev). now rewrite (delete_id _ _ Ea).
Qed.

Lemma removed_both (m : gmap string (list N)) (v a : string) :
  delete a (delete v m) !! v = None /\ delete a (delete v m) !! a = None.
Proof.
  split; [|apply lookup_delete_eq].
  destruct (decide (a = v)) as [->|]; now map_lookup.
Qed.

Ltac run_to_clip Hv Hd Ha :=
  unfold extract_audio_from_video, try_except, NamedTemporaryFile,
    write_file, set_tmp_video_path, set_tmp_audio_path,
    bind, lift, ret, raise, get, modify, enter; simpl;
  rewrite Hv, Hd, Ha; simpl.

Lemma extract_all_or_nothing_aux (w : media) (files : gmap string (list N))
    (v a : string) (data : list N) :
  new_video_tmp w = Return v ->
  upload w = Return data ->
  new_audio_tmp w = Return a ->
  let '(r, f) := extract_audio_from_video w (enter files) in
  match r with
  | Return paths =>
      paths = (v, a) /\ exists_ f v = true /\ (0 < getsize f a)%nat
  | Raise _ => fs f !! v = None /\ fs f !! a = None
  end
  /\ forall p, p <> v -> p <> a -> fs f !! p = files !! p.
Proof.
  intros Hv Hd Ha. run_to_clip Hv Hd Ha.
  destruct (open_clip w) as [[[rendered|e]|]|e]; simpl.
  - unfold exists_, getsize; simpl. rewrite lookup_insert_eq; simpl.
    destruct rendered as [|c rendered]; simpl.
    + rewrite cleanup_bound. split; [apply removed_both|].
      intros p Hpv Hpa; simpl. now map_lookup.
    + split.
      * split; [reflexivity|].
        unfold exists_, getsize; simpl. split.
        -- destruct (decide (v = a)) as [->|]; now map_lookup.
        -- map_lookup. simpl. lia.
      * intros p Hpv Hpa. now map_lookup.
  - rewrite cleanup_bound. split; [apply removed_both|].
    intros p Hpv Hpa; simpl. now map_lookup.
  - rewrite cleanup_bound. split; [apply removed_both|].
    intros p Hpv Hpa; simpl. now map_lookup.
  - rewrite cleanup_bound. split; [apply removed_both|].
    intros p Hpv Hpa; simpl. now map_lookup.
Qed.

(** X15.  Once the two temporary files have been created and the upload
    written, [extract_audio_from_video] is all or nothing, whatever the
    media library does: either it returns the two paths, both files exist
    and the audio file is not empty, or it raises and neither file exists
    any more. *)
Theorem extract_all_or_nothing (w : media) (files : gmap string (list N))
    (v a : string) (data : list N) :
  new_video_tmp w = Return v ->
  upload w = Return data ->
  new_audio_tmp w = Return a ->
  let '(r, f) := extract_audio_from_video w (enter files) in
  match r with
  | Return paths =>
      paths = (v, a) /\ exists_ f v = true /\ (0 < getsize f a)%nat
  | Raise _ => fs f !! v = None /\ fs f !! a = None
  end.
Proof.
  intros Hv Hd Ha.
  pose proof (extract_all_or_nothing_aux w files v a data Hv Hd Ha) as H.
  destruct (extract_audio_from_video w (enter files)) as [r f].
  now destruct H as [H _].
Qed.

Lemma extract_all_or_nothing_witness :
  let w := {| new_video_tmp := Return "/tmp/tmpab12.mp4";
              upload := Return [0; 0; 0; 24];
              new_audio_tmp := Return "/tmp/tmpcd34.wav";
              open_clip := Return (Some (Raise (LibraryError "ffmpeg"))) |} in
  let files : gmap string (list N) := {[ "/tmp/other" := [1] ]} in
  let '(r, f) := extract_audio_from_video w (enter files) in
  match r with
  | Return paths =>
      paths = ("/tmp/tmpab12.mp4", "/tmp/tmpcd34.wav")
      /\ exists_ f "/tmp/tmpab12.mp4" = true
      /\ (0 < getsize f "/tmp/tmpcd34.wav")%nat
  | Raise _ =>
      fs f !! "/tmp/tmpab12.mp4" = None /\ fs f !! "/tmp/tmpcd34.wav" = None
  end.
Proof.
  intros w files.
  apply (extract_all_or_nothing w files "/tmp/tmpab12.mp4" "/tmp/tmpcd34.wav"
           [0; 0; 0; 24]); reflexivity.
Defined.

(** X16.  An exception of the media library, raised when the clip is
    opened or when the audio is rendered, leaves [extract_audio_from_video]
    unchanged once the cleanup has run; an audio file that comes out empty
    makes it raise "Failed to extract audio from video". *)
Theorem extract_failure_cause (w : media) (files : gmap string (list N))
    (v a : string) (data : list N) :
  new_video_tmp w = Return v ->
  upload w = Return data ->
  new_audio_tmp w = Return a ->
  fst (extract_audio_from_video w (enter files))
  = match open_clip w with
    | Raise e => Raise e
    | Return None => Raise (Exception "No audio track found in video file")
    | Return (Some (Raise e)) => Raise e
    | Return (Some (Return [])) =>
        Raise (Exception "Failed to extract audio from video")
    | Return (Some (Return (_ :: _))) => Return (v, a)
    end.
Proof.
  intros Hv Hd Ha. run_to_clip Hv Hd Ha.
  destruct (open_clip w) as [[[rendered|e]|]|e]; simpl;
    try (rewrite cleanup_bound; reflexivity).
  unfold exists_, getsize; simpl. rewrite lookup_insert_eq; simpl.
  destruct rendered; simpl; [|reflexivity].
  now rewrite cleanup_bound.
Qed.

Lemma extract_failure_cause_witness :
  let w := {| new_video_tmp := Return "/tmp/tmpab12.mp4";
              upload := Return [0; 0; 0; 24];
              new_audio_tmp := Return "/tmp/tmpcd34.wav";
              open_clip := Return (Some (Return [])) |} in
  fst (extract_audio_from_video w (enter ∅))
  = Raise (Exception "Failed to extract audio from video").
Proof.
  intros w.
  apply (extract_failure_cause w ∅ "/tmp/tmpab12.mp4" "/tmp/tmpcd34.wav"
           [0; 0; 0; 24]); reflexivity.
Defined.

(** X17.  When the upload cannot be read, or the second temporary file
    cannot be created, the handler itself fails on a local that was never
    assigned: the caller sees [UnboundLocalError] instead of the cause, and
    the video file created so far stays on disk. *)
Theorem extract_early_failure_leaks (w : media)
    (files : gmap string (list N)) (v : string) :
  new_video_tmp w = Return v ->
  (exists e, upload w = Raise e)
  \/ (exists data e, upload w = Return data /\ new_audio_tmp w = Raise e) ->
  let '(r, f) := extract_audio_from_video w (enter files) in
  (exists name, r = Raise (UnboundLocalError name))
  /\ exists_ f v = true.
Proof.
  intros Hv H.
  unfold extract_audio_from_video, try_except, NamedTemporaryFile, cleanup,
    write_file, set_tmp_video_path, set_tmp_audio_path, exists_,
    bind, lift, ret, raise, get, modify, enter; simpl.
  rewrite Hv; simpl.
  destruct H as [[e He] | (data & e & Hd & Ha)].
  - rewrite He; simpl. split; [eauto|]. now rewrite lookup_insert_eq.
  - rewrite Hd; simpl. rewrite Ha; simpl. split; [eauto|].
    now rewrite lookup_insert_eq.
Qed.

Lemma extract_early_failure_leaks_witness :
  let w := {| new_video_tmp := Return "/tmp/tmpab12.mp4";
              upload := Return [0; 0; 0; 24];
              new_audio_tmp := Raise (LibraryError "No space left on device");
              open_clip := Return None |} in
  let '(r, f) := extract_audio_from_video w (enter ∅) in
  (exists name, r = Raise (UnboundLocalError name))
  /\ exists_ f "/tmp/tmpab12.mp4" = true.
Proof.
  intros w.
  apply (extract_early_failure_leaks w ∅ "/tmp/tmpab12.mp4");
    [reflexivity|].
  right. exists [0; 0; 0; 24], (LibraryError "No space left on device").
  split; reflexivity.
Defined.

(** ** Transcription *)

Example transcribe_audio_example :
  let files : gmap string (list N) := {[ "/tmp/a.wav" := [82; 73; 70; 70] ]} in
  let speech : Transcription.recogniser := fun _ => Return (py " hello there ") in
  Transcription.transcribe_audio speech "/tmp/a.wav" (files, [])
  = (Return (py "hello there"), (files, ["/tmp/a.wav"])).
Proof. vm_compute. reflexivity. Qed.

(** The run of [transcribe_audio] on a file that is missing or empty. *)
Lemma transcribe_audio_unreadable_aux (speech : Transcription.recogniser)
    (audio_path : string) (files : gmap string (list N))
    (recognised : list string) :
  Transcription.getsize files audio_path = 0%nat ->
  Transcription.transcribe_audio speech audio_path (files, recognised)
  = (Raise (Exception (if Transcription.exists_ files audio_path
                       then "Audio file is empty"
                       else "Audio file not found")),
     (files, recognised)).
Proof.
  intros Z. unfold Transcription.transcribe_audio, try_except, bind, get.
  cbn [fst snd].
  destruct (Transcription.exists_ files audio_path); cbn [negb];
    [rewrite Z|]; reflexivity.
Qed.

(** X18.  [transcribe_audio] refuses a file that does not exist ("Audio
    file not found") and a file of zero length ("Audio file is empty")
    before the recogniser is run: nothing is recognised. *)
Theorem transcribe_audio_unreadable (speech : Transcription.recogniser)
    (audio_path : string) (files : gmap string (list N))
    (recognised : list string) :
  Transcription.getsize files audio_path = 0%nat ->
  Transcription.transcribe_audio speech audio_path (files, recognised)
  = (Raise (Exception (if Transcription.exists_ files audio_path
                       then "Audio file is empty"
                       else "Audio file not found")),
     (files, recognised)).
Proof. apply transcribe_audio_unreadable_aux. Qed.

Lemma transcribe_audio_unreadable_witness :
  let files : gmap string (list N) := {[ "/tmp/a.wav" := [] ]} in
  let speech : Transcription.recogniser := fun _ => Return (py "hello") in
  Transcription.transcribe_audio speech "/tmp/a.wav" (files, [])
  = (Raise (Exception (if Transcription.exists_ files "/tmp/a.wav"
                       then "Audio file is empty"
                       else "Audio file not found")),
     (files, [])).
Proof.
  intros files speech.
  apply (transcribe_audio_unreadable speech "/tmp/a.wav" files []).
  reflexivity.
Defined.

(** The run of [transcribe_audio] on a file that exists and is not
    empty. *)
Lemma transcribe_audio_run (speech : Transcription.recogniser)
    (audio_path : string) (files : gmap string (list N))
    (recognised : list string) (data : list N) :
  files !! audio_path = Some data -> data <> [] ->
  Transcription.transcribe_audio speech audio_path (files, recognised)
  = (match speech data with
     | Return text =>
         if truthy (strip text) then Return (strip text)
         else Raise (Exception "No speech detected in audio")
     | Raise e => Raise e
     end,
     (files, recognised ++ [audio_path])).
Proof.
  intros L Hne.
  unfold Transcription.transcribe_audio, try_except, bind, get, raise, ret,
    Transcription.recognise, Transcription.exists_, Transcription.getsize.
  simpl. rewrite L. simpl.
  destruct data as [|c data]; [congruence|]. simpl. rewrite L. simpl.
  destruct (speech (c :: data)) as [text|e]; [|reflexivity].
  now destruct (truthy (strip text)).
Qed.

(** The files are never changed by [transcribe_audio]. *)
Lemma transcribe_audio_files (speech : Transcription.recogniser)
    (audio_path : string) (files : gmap string (list N))
    (recognised : list string) :
  fst (snd (Transcription.transcribe_audio speech audio_path
              (files, recognised))) = files.
Proof.
  destruct (files !! audio_path) as [data|] eqn:L.
  - destruct data as [|c data].
    + rewrite transcribe_audio_unreadable_aux; [reflexivity|].
      unfold Transcription.getsize. now rewrite L.
    + now rewrite (transcribe_audio_run _ _ _ _ (c :: data) L).
  - rewrite transcribe_audio_unreadable_aux; [reflexivity|].
    unfold Transcription.getsize. now rewrite L.
Qed.

Lemma transcribe_audio_transcript_aux (speech : Transcription.recogniser)
    (audio_path : string) (files : gmap string (list N))
    (recognised : list string) (transcript : str) :
  fst (Transcription.transcribe_audio speech audio_path (files, recognised))
  = Return transcript ->
  truthy transcript = true
  /\ strip transcript = transcript
  /\ snd (Transcription.transcribe_audio speech audio_path (files, recognised))
     = (files, recognised ++ [audio_path]).
Proof.
  destruct (files !! audio_path) as [[|c data]|] eqn:L.
  - rewrite transcribe_audio_unreadable_aux; [discriminate|].
    unfold Transcription.getsize. now rewrite L.
  - rewrite (transcribe_audio_run _ _ _ _ (c :: data) L) by discriminate.
    cbn [fst snd].
    destruct (speech (c :: data)) as [text|e]; [|discriminate].
    destruct (truthy (strip text)) eqn:T; [|discriminate].
    intros [= <-]. repeat split; [exact T | apply strip_idempotent].
  - rewrite transcribe_audio_unreadable_aux; [discriminate|].
    unfold Transcription.getsize. now rewrite L.
Qed.

(** X19.  A transcript that [transcribe_audio] returns is never blank and
    has no whitespace at either end, so the summarizer's guard against an
    empty transcript accepts it; the recogniser has been run once, on that
    file. *)
Theorem transcribe_audio_transcript (speech : Transcription.recogniser)
    (audio_path : string) (files : gmap string (list N))
    (recognised : list string) (transcript : str) :
  fst (Transcription.transcribe_audio speech audio_path (files, recognised))
  = Return transcript ->
  truthy transcript = true
  /\ strip transcript = transcript
  /\ snd (snd (Transcription.transcribe_audio speech audio_path
                 (files, recognised)))
     = recognised ++ [audio_path].
Proof.
  intros H.
  destruct (transcribe_audio_transcript_aux speech audio_path files
              recognised transcript H) as (T & S & R).
  split; [exact T|]. split; [exact S|]. now rewrite R.
Qed.

Lemma transcribe_audio_transcript_witness :
  let files : gmap string (list N) := {[ "/tmp/a.wav" := [82; 73; 70; 70] ]} in
  let speech : Transcription.recogniser := fun _ => Return (py " hello there ") in
  truthy (py "hello there") = true
  /\ strip (py "hello there") = py "hello there"
  /\ snd (snd (Transcription.transcribe_audio speech "/tmp/a.wav" (files, [])))
     = [] ++ ["/tmp/a.wav"].
Proof.
  intros files speech.
  apply (transcribe_audio_transcript speech "/tmp/a.wav" files []
           (py "hello there")).
  reflexivity.
Defined.

(** ** The orchestration of a run *)

Import App.

Lemma summarize_blank env meeting_type w :
  truthy (st_transcript (state w)) = false ->
  summarize_and_assemble env meeting_type w = (Return tt, w).
Proof.
  intros T. unfold summarize_and_assemble, bind, get. now rewrite T.
Qed.

Lemma summarize_fails env meeting_type w e sent :
  truthy (st_transcript (state w)) = true ->
  Summarizer.generate_summary_and_actions (cfg env) (gemini env)
    (st_transcript (state w)) meeting_type (prompts w) = (Raise e, sent) ->
  summarize_and_assemble env meeting_type w
  = (Raise e,
     set_prompts sent
       (set_ui (ui w ++ [ShowStatus ([129302]
                           ++ py " Generating summary and action items...");
                         ShowProgress 70]) w)).
Proof.
  intros T G.
  unfold summarize_and_assemble, bind, get, emit, modify,
    App.generate_summary_and_actions, zoom.
  rewrite T. cbn [state prompts set_ui set_prompts]. rewrite G.
  unfold set_prompts, set_ui. cbn. now rewrite <- app_assoc.
Qed.

Lemma summarize_succeeds env meeting_type w summary action_items sent :
  truthy (st_transcript (state w)) = true ->
  Summarizer.generate_summary_and_actions (cfg env) (gemini env)
    (st_transcript (state w)) meeting_type (prompts w)
  = (Return (summary, action_items), sent) ->
  assemblable (now_docx env) (st_transcript (state w)) summary action_items
  = true ->
  summarize_and_assemble env meeting_type w
  = (Return tt,
     {| disk := disk w;
        recognised := recognised w;
        prompts := sent;
        posted := posted w;
        state := processed (now_docx env) (state w) summary action_items;
        ui := ui w
              ++ [ShowStatus ([129302]
                    ++ py " Generating summary and action items...");
                  ShowProgress 70;
                  ShowStatus ([128196] ++ py " Creating document...");
                  ShowProgress 90;
                  ShowProgress 100;
                  ShowStatus Config.processing_complete;
                  Pause 1;
                  ClearProgress;
                  ClearStatus;
                  ShowSuccess ([127881] ++ py " Meeting processed successfully!")];
        temp_files := temp_files w |}).
Proof.
  intros T G X.
  unfold summarize_and_assemble, bind, get, emit, modify, lift, ret,
    App.generate_summary_and_actions, zoom, assign_summary,
    assign_action_items, assign_docx_file, assign_processing_complete.
  rewrite T. cbn [state prompts set_ui set_prompts]. rewrite G.
  cbn -[create_docx py Config.processing_complete].
  rewrite create_docx_run, X.
  cbn -[docx_layout py Config.processing_complete].
  unfold processed. rewrite <- !app_assoc. reflexivity.
Qed.

(** The summary and the action items are stored before the document is
    assembled: when the assembly raises they stay in the session. *)
Lemma summarize_unassembled env meeting_type w summary action_items sent :
  truthy (st_transcript (state w)) = true ->
  Summarizer.generate_summary_and_actions (cfg env) (gemini env)
    (st_transcript (state w)) meeting_type (prompts w)
  = (Return (summary, action_items), sent) ->
  assemblable (now_docx env) (st_transcript (state w)) summary action_items
  = false ->
  summarize_and_assemble env meeting_type w
  = (Raise XML_ERROR,
     {| disk := disk w;
        recognised := recognised w;
        prompts := sent;
        posted := posted w;
        state := summarized (state w) summary action_items;
        ui := ui w
              ++ [ShowStatus ([129302]
                    ++ py " Generating summary and action items...");
                  ShowProgress 70;
                  ShowStatus ([128196] ++ py " Creating document...");
                  ShowProgress 90];
        temp_files := temp_files w |}).
Proof.
  intros T G X.
  unfold summarize_and_assemble, bind, get, emit, modify, lift, ret,
    App.generate_summary_and_actions, zoom, assign_summary,
    assign_action_items, assign_docx_file, assign_processing_complete.
  rewrite T. cbn [state prompts set_ui set_prompts]. rewrite G.
  cbn -[create_docx py Config.processing_complete].
  rewrite create_docx_run, X.
  cbn -[docx_layout py Config.processing_complete].
  unfold summarized. rewrite <- !app_assoc. reflexivity.
Qed.

(** The [finally] block removes every listed file and raises nothing. *)
Lemma remove_temp_files_run w :
  remove_temp_files w
  = (Return tt, set_disk (without (temp_files w) (disk w)) w).
Proof.
  unfold remove_temp_files, bind at 1. unfold get at 1. cbn [fst snd].
  assert (K : forall paths w0,
    for_each paths (fun temp_file =>
      w' <- get ;;
      if Transcription.exists_ (disk w') temp_file
      then try_except
             (modify (fun w'' => set_disk (delete temp_file (disk w'')) w''))
             (fun _ => ret tt)
      else ret tt) w0
    = (Return tt, set_disk (without paths (disk w0)) w0)).
  { induction paths as [|p paths IH]; intros w0.
    - destruct w0; reflexivity.
    - cbn [for_each]. unfold bind at 1. unfold bind at 1. unfold get at 1.
      unfold Transcription.exists_.
      destruct (disk w0 !! p) eqn:E.
      + unfold try_except, modify. rewrite IH. reflexivity.
      + unfold ret at 1. rewrite IH. unfold without. cbn [fold_left].
        now rewrite (delete_id _ _ E). }
  apply K.
Qed.

Lemma without_lookup_other paths : forall (files : gmap string (list N)) p,
  ~ In p paths -> without paths files !! p = files !! p.
Proof.
  induction paths as [|q paths IH]; intros files p H; [reflexivity|].
  unfold without. cbn [fold_left]. fold (without paths (delete q files)).
  rewrite IH by (intros I; apply H; now right).
  apply lookup_delete_ne. intros ->. apply H. now left.
Qed.

Lemma without_lookup_removed paths : forall (files : gmap string (list N)) p,
  In p paths -> without paths files !! p = None.
Proof.
  induction paths as [|q paths IH]; intros files p H; [destruct H|].
  unfold without. cbn [fold_left]. fold (without paths (delete q files)).
  destruct (in_dec string_dec p paths) as [I|NI]; [now apply IH|].
  rewrite without_lookup_other by exact NI.
  destruct H as [->|I]; [apply lookup_delete_eq | contradiction].
Qed.

Lemma obtain_skipped env uploaded_file file_type w :
  (String.eqb file_type "video" || String.eqb file_type "audio")
  && negb (truthy (st_transcript (state w))) = false ->
  obtain_transcript env uploaded_file file_type w = (Return tt, w).
Proof.
  intros C. unfold obtain_transcript, bind, get. now rewrite C.
Qed.

(** The video path of steps 1 and 2, in terms of what extraction and
    transcription do. *)
Lemma obtain_video_run env uploaded_file w :
  truthy (st_transcript (state w)) = false ->
  obtain_transcript env uploaded_file "video" w
  = let shown := ui w ++ [ShowStatus ([127916] ++ py " Extracting audio from video...");
                          ShowProgress 10] in
    match Audio.extract_audio_from_video (media_of env uploaded_file)
            (Audio.enter (disk w)) with
    | (Raise e, f) =>
        (Raise e,
         {| disk := Audio.fs f; recognised := recognised w;
            prompts := prompts w; posted := posted w; state := state w;
            ui := shown; temp_files := [] |})
    | (Return paths, f) =>
        let shown' := shown ++ [ShowStatus ([127908] ++ py " Converting speech to text...");
                                ShowProgress 40] in
        match Transcription.transcribe_audio (speech env) (snd paths)
                (Audio.fs f, recognised w) with
        | (Return transcript, s) =>
            (Return tt,
             {| disk := without [fst paths; snd paths] (fst s);
                recognised := snd s;
                prompts := prompts w; posted := posted w;
                state := with_transcript transcript (state w);
                ui := shown'; temp_files := [fst paths; snd paths] |})
        | (Raise e, s) =>
            (Raise e,
             {| disk := without [fst paths; snd paths] (fst s);
                recognised := snd s;
                prompts := prompts w; posted := posted w;
                state := state w;
                ui := shown'; temp_files := [fst paths; snd paths] |})
        end
    end.
Proof.
  intros T. unfold obtain_transcript. unfold bind at 1. unfold get at 1.
  rewrite T. cbn [String.eqb Ascii.eqb Bool.eqb orb andb negb].
  unfold bind at 1. unfold modify at 1.
  unfold try_finally.
  unfold bind at 1. unfold bind at 1. unfold emit at 1. unfold modify at 1.
  unfold bind at 1. unfold emit at 1. unfold modify at 1.
  unfold bind at 1. unfold App.extract_audio_from_video, zoom.
  cbn [disk set_ui set_temp_files].
  destruct (Audio.extract_audio_from_video (media_of env uploaded_file)
              (Audio.enter (disk w))) as [[paths|e] f].
  - unfold bind at 1. unfold modify at 1. unfold ret at 1.
    unfold bind at 1. unfold emit at 1. unfold modify at 1.
    unfold bind at 1. unfold emit at 1. unfold modify at 1.
    unfold bind at 1. unfold App.transcribe_audio, zoom.
    cbn [disk recognised set_ui set_temp_files set_disk temp_files ui].
    destruct (Transcription.transcribe_audio (speech env) (snd paths)
                (Audio.fs f, recognised w)) as [[transcript|e] s].
    + unfold assign_transcript, modify. rewrite remove_temp_files_run.
      cbn. rewrite <- !app_assoc. reflexivity.
    + rewrite remove_temp_files_run.
      cbn. rewrite <- !app_assoc. reflexivity.
  - rewrite remove_temp_files_run.
    cbn. rewrite <- !app_assoc. reflexivity.
Qed.

(** The audio path of steps 1 and 2. *)
Lemma obtain_audio_run env uploaded_file w :
  truthy (st_transcript (state w)) = false ->
  obtain_transcript env uploaded_file "audio" w
  = let shown := ui w ++ [ShowStatus ([127925] ++ py " Processing audio file...");
                          ShowProgress 10] in
    match tmp_audio env with
    | Raise e =>
        (Raise e,
         {| disk := disk w; recognised := recognised w;
            prompts := prompts w; posted := posted w; state := state w;
            ui := shown; temp_files := [] |})
    | Return name =>
        match read uploaded_file with
        | Raise e =>
            (Raise e,
             {| disk := <[name := []]> (disk w); recognised := recognised w;
                prompts := prompts w; posted := posted w; state := state w;
                ui := shown; temp_files := [] |})
        | Return data =>
            let shown' :=
              shown ++ [ShowStatus ([127908] ++ py " Converting speech to text...");
                        ShowProgress 40] in
            match Transcription.transcribe_audio (speech env) name
                    (<[name := data]> (<[name := []]> (disk w)),
                     recognised w) with
            | (Return transcript, s) =>
                (Return tt,
                 {| disk := without [name] (fst s);
                    recognised := snd s;
                    prompts := prompts w; posted := posted w;
                    state := with_transcript transcript (state w);
                    ui := shown'; temp_files := [name] |})
            | (Raise e, s) =>
                (Raise e,
                 {| disk := without [name] (fst s);
                    recognised := snd s;
                    prompts := prompts w; posted := posted w;
                    state := state w;
                    ui := shown'; temp_files := [name] |})
            end
        end
    end.
Proof.
  intros T. unfold obtain_transcript. unfold bind at 1. unfold get at 1.
  rewrite T. cbn [String.eqb Ascii.eqb Bool.eqb orb andb negb].
  unfold bind at 1. unfold modify at 1.
  unfold try_finally.
  unfold bind at 1. unfold bind at 1. unfold emit at 1. unfold modify at 1.
  unfold bind at 1. unfold emit at 1. unfold modify at 1.
  unfold bind at 1. unfold lift at 1.
  destruct (tmp_audio env) as [name|e].
  - unfold bind at 1. unfold modify at 1.
    unfold bind at 1. unfold lift at 1.
    destruct (read uploaded_file) as [data|e].
    + unfold bind at 1. unfold modify at 1.
      unfold bind at 1. unfold modify at 1. unfold ret at 1.
      unfold bind at 1. unfold emit at 1. unfold modify at 1.
      unfold bind at 1. unfold emit at 1. unfold modify at 1.
      unfold bind at 1. unfold App.transcribe_audio, zoom.
      cbn [disk recognised set_ui set_temp_files set_disk temp_files ui].
      destruct (Transcription.transcribe_audio (speech env) name
                  (<[name := data]> (<[name := []]> (disk w)), recognised w))
        as [[transcript|e] s].
      * unfold assign_transcript, modify. rewrite remove_temp_files_run.
        cbn. rewrite <- !app_assoc. reflexivity.
      * rewrite remove_temp_files_run.
        cbn. rewrite <- !app_assoc. reflexivity.
    + rewrite remove_temp_files_run.
      cbn. rewrite <- !app_assoc. reflexivity.
  - rewrite remove_temp_files_run.
    cbn. rewrite <- !app_assoc. reflexivity.
Qed.

(** [process_meeting] in terms of its two steps. *)
Lemma process_meeting_run env uploaded_file file_type meeting_type w :
  process_meeting env uploaded_file file_type meeting_type w
  = match (obtain_transcript env uploaded_file file_type ;;
           summarize_and_assemble env meeting_type)
            (set_ui (ui w ++ [ShowProgress 0]) w) with
    | (Return _, w') => (Return tt, w')
    | (Raise e, w') =>
        (Return tt,
         set_ui (ui w' ++ [ClearProgress; ClearStatus;
                           ShowError ([10060] ++ py " Processing failed: "
                                       ++ describe env e)]) w')
    end.
Proof.
  unfold process_meeting. unfold bind at 1. unfold emit at 1.
  unfold modify at 1. unfold try_except.
  destruct ((obtain_transcript env uploaded_file file_type ;;
             summarize_and_assemble env meeting_type)
              (set_ui (ui w ++ [ShowProgress 0]) w)) as [[[]|e] w'].
  - reflexivity.
  - unfold bind, emit, modify. cbn. rewrite <- !app_assoc. reflexivity.
Qed.

(** X20.  [process_meeting] contains every exception of its steps: for
    every upload, file type and answer of the services it returns
    normally. *)
Theorem process_meeting_never_raises (env : services) (uploaded_file : file)
    (file_type meeting_type : string) (w : world) :
  fst (process_meeting env uploaded_file file_type meeting_type w)
  = Return tt.
Proof.
  rewrite process_meeting_run.
  now destruct ((obtain_transcript env uploaded_file file_type ;;
                 summarize_and_assemble env meeting_type)
                  (set_ui (ui w ++ [ShowProgress 0]) w)) as [[[]|e] w'].
Qed.

(** Steps 3 and 4 touch neither the files nor the recogniser nor Slack. *)
Lemma summarize_frame env meeting_type w :
  disk (snd (summarize_and_assemble env meeting_type w)) = disk w
  /\ recognised (snd (summarize_and_assemble env meeting_type w))
     = recognised w
  /\ posted (snd (summarize_and_assemble env meeting_type w)) = posted w.
Proof.
  destruct (truthy (st_transcript (state w))) eqn:T.
  - destruct (Summarizer.generate_summary_and_actions (cfg env) (gemini env)
                (st_transcript (state w)) meeting_type (prompts w))
      as [[[summary action_items]|e] sent] eqn:G.
    + destruct (assemblable (now_docx env) (st_transcript (state w)) summary
                  action_items) eqn:X.
      * rewrite (summarize_succeeds _ _ _ _ _ _ T G X). auto.
      * rewrite (summarize_unassembled _ _ _ _ _ _ T G X). auto.
    + rewrite (summarize_fails _ _ _ _ _ T G). auto.
  - rewrite (summarize_blank _ _ _ T). auto.
Qed.

(** The files and the recognitions after a run are those after steps 1
    and 2. *)
Lemma process_meeting_files env uploaded_file file_type meeting_type w :
  let after := snd (obtain_transcript env uploaded_file file_type
                      (set_ui (ui w ++ [ShowProgress 0]) w)) in
  disk (snd (process_meeting env uploaded_file file_type meeting_type w))
  = disk after
  /\ recognised (snd (process_meeting env uploaded_file file_type
                        meeting_type w))
     = recognised after.
Proof.
  intros after. subst after. rewrite process_meeting_run. unfold bind.
  destruct (obtain_transcript env uploaded_file file_type
              (set_ui (ui w ++ [ShowProgress 0]) w)) as [[[]|e] w1].
  - destruct (summarize_frame env meeting_type w1) as (D & R & _).
    destruct (summarize_and_assemble env meeting_type w1) as [[[]|e] w2];
      cbn [fst snd] in *; auto.
  - auto.
Qed.

Lemma process_meeting_video_cleanup_aux (env : services)
    (uploaded_file : file) (meeting_type : string) (w : world)
    (v a : string) (data : list N) :
  truthy (st_transcript (state w)) = false ->
  tmp_video env = Return v ->
  read uploaded_file = Return data ->
  tmp_audio env = Return a ->
  let after := snd (obtain_transcript env uploaded_file "video"
                      (set_ui (ui w ++ [ShowProgress 0]) w)) in
  disk after !! v = None
  /\ disk after !! a = None
  /\ forall p, p <> v -> p <> a -> disk after !! p = disk w !! p.
Proof.
  intros T Hv Hd Ha after. subst after.
  rewrite obtain_video_run by exact T. cbn [disk recognised set_ui].
  pose proof (extract_all_or_nothing_aux (media_of env uploaded_file)
                (disk w) v a data Hv Hd Ha) as H.
  destruct (Audio.extract_audio_from_video (media_of env uploaded_file)
              (Audio.enter (disk w))) as [[paths|e] f].
  - destruct H as ((-> & _ & _) & Other). cbn [fst snd].
    pose proof (transcribe_audio_files (speech env) a (Audio.fs f)
                  (recognised w)) as F.
    destruct (Transcription.transcribe_audio (speech env) a
                (Audio.fs f, recognised w)) as [[transcript|e] s];
      cbn [fst snd disk] in *; rewrite F;
      (split; [apply without_lookup_removed; now left|]);
      (split; [apply without_lookup_removed; right; now left|]);
      intros p Hpv Hpa;
      (rewrite without_lookup_other by (intros [?|[?|[]]]; congruence));
      now apply Other.
  - destruct H as ((Nv & Na) & Other). cbn [fst snd disk]. auto.
Qed.

(** X21.  For a video upload, once the two temporary files have been
    created, [process_meeting] leaves neither of them behind, whatever the
    media library, the recogniser and the model do. *)
Theorem process_meeting_video_cleanup (env : services)
    (uploaded_file : file) (meeting_type : string) (w : world)
    (v a : string) (data : list N) :
  truthy (st_transcript (state w)) = false ->
  tmp_video env = Return v ->
  read uploaded_file = Return data ->
  tmp_audio env = Return a ->
  let after := snd (process_meeting env uploaded_file "video" meeting_type w) in
  disk after !! v = None /\ disk after !! a = None.
Proof.
  intros T Hv Hd Ha after. subst after.
  destruct (process_meeting_files env uploaded_file "video" meeting_type w)
    as [-> _].
  destruct (process_meeting_video_cleanup_aux env uploaded_file meeting_type
              w v a data T Hv Hd Ha) as (Nv & Na & _).
  split; assumption.
Qed.

Import Samples.

Example process_meeting_video_run :
  let after := snd (process_meeting sample_services sample_upload "video"
                      "general" fresh_world) in
  st_processing_complete (state after) = true
  /\ st_transcript (state after) = py "Alice will send the report."
  /\ st_summary (state after) = py "The team met."
  /\ st_action_items (state after)
     = [py "- Alice sends the report"; py "- Bob books a room"]
  /\ disk after = disk fresh_world
  /\ recognised after = ["/tmp/tmpcd34.wav"]
  /\ progress_shown (ui after) = [0; 10; 40; 70; 90; 100].
Proof. vm_compute. repeat split. Qed.

Lemma process_meeting_video_cleanup_witness :
  let after := snd (process_meeting offline_services sample_upload "video"
                      "general" fresh_world) in
  disk after !! "/tmp/tmpab12.mp4" = None
  /\ disk after !! "/tmp/tmpcd34.wav" = None.
Proof.
  apply (process_meeting_video_cleanup offline_services sample_upload
           "general" fresh_world "/tmp/tmpab12.mp4" "/tmp/tmpcd34.wav"
           [0; 0; 0; 24]); reflexivity.
Defined.

Lemma process_meeting_audio_files_aux (env : services)
    (uploaded_file : file) (w : world) (a : string) :
  truthy (st_transcript (state w)) = false ->
  tmp_audio env = Return a ->
  let after := snd (obtain_transcript env uploaded_file "audio"
                      (set_ui (ui w ++ [ShowProgress 0]) w)) in
  disk after !! a = match read uploaded_file with
                    | Return _ => None
                    | Raise _ => Some []
                    end
  /\ forall p, p <> a -> disk after !! p = disk w !! p.
Proof.
  intros T Ha after. subst after.
  rewrite obtain_audio_run by exact T.
  cbn [disk recognised set_ui]. rewrite Ha.
  destruct (read uploaded_file) as [data|e].
  - pose proof (transcribe_audio_files (speech env) a
                  (<[a := data]> (<[a := []]> (disk w))) (recognised w)) as F.
    destruct (Transcription.transcribe_audio (speech env) a
                (<[a := data]> (<[a := []]> (disk w)), recognised w))
      as [[transcript|e] s];
      cbn [fst snd disk] in *; rewrite F;
      (split; [apply without_lookup_removed; now left|]);
      intros p Hp;
      (rewrite without_lookup_other by (intros [?|[]]; congruence));
      now map_lookup.
  - cbn [fst snd disk]. split; [now map_lookup|].
    intros p Hp. now map_lookup.
Qed.

(** X22.  For an audio upload that can be read, [process_meeting] leaves
    the temporary file it created behind in no case, whatever the
    recogniser and the model do. *)
Theorem process_meeting_audio_cleanup (env : services)
    (uploaded_file : file) (meeting_type : string) (w : world)
    (a : string) (data : list N) :
  truthy (st_transcript (state w)) = false ->
  tmp_audio env = Return a ->
  read uploaded_file = Return data ->
  disk (snd (process_meeting env uploaded_file "audio" meeting_type w)) !! a
  = None.
Proof.
  intros T Ha Hd.
  destruct (process_meeting_files env uploaded_file "audio" meeting_type w)
    as [-> _].
  destruct (process_meeting_audio_files_aux env uploaded_file w a T Ha)
    as [L _].
  now rewrite Hd in L.
Qed.

Lemma process_meeting_audio_cleanup_witness :
  disk (snd (process_meeting offline_services sample_upload "audio"
               "general" fresh_world)) !! "/tmp/tmpcd34.wav"
  = None.
Proof.
  apply (process_meeting_audio_cleanup offline_services sample_upload
           "general" fresh_world "/tmp/tmpcd34.wav" [0; 0; 0; 24]);
    reflexivity.
Defined.

(** X23.  For an audio upload that cannot be read, the temporary file
    [process_meeting] has just created is not in its list of files to
    remove: it stays on disk, empty. *)
Theorem process_meeting_audio_leak (env : services)
    (uploaded_file : file) (meeting_type : string) (w : world)
    (a : string) (e : exn) :
  truthy (st_transcript (state w)) = false ->
  tmp_audio env = Return a ->
  read uploaded_file = Raise e ->
  disk (snd (process_meeting env uploaded_file "audio" meeting_type w)) !! a
  = Some [].
Proof.
  intros T Ha Hd.
  destruct (process_meeting_files env uploaded_file "audio" meeting_type w)
    as [-> _].
  destruct (process_meeting_audio_files_aux env uploaded_file w a T Ha)
    as [L _].
  now rewrite Hd in L.
Qed.

Lemma process_meeting_audio_leak_witness :
  disk (snd (process_meeting sample_services broken_upload "audio" "general"
               fresh_world)) !! "/tmp/tmpcd34.wav"
  = Some [].
Proof.
  apply (process_meeting_audio_leak sample_services broken_upload "general"
           fresh_world "/tmp/tmpcd34.wav" (LibraryError "read failed"));
    reflexivity.
Defined.

Lemma obtain_skipped_cached env uploaded_file file_type w :
  truthy (st_transcript (state w)) = true ->
  obtain_transcript env uploaded_file file_type w = (Return tt, w).
Proof.
  intros T. apply obtain_skipped. rewrite T. apply andb_false_r.
Qed.

(** X24.  With a transcript already in the session, [process_meeting]
    ignores the uploaded video or audio: the run is the one of a text
    upload, no temporary file is created and nothing is recognised. *)
Theorem process_meeting_cached_transcript (env : services)
    (uploaded_file : file) (file_type meeting_type : string) (w : world) :
  truthy (st_transcript (state w)) = true ->
  process_meeting env uploaded_file file_type meeting_type w
  = process_meeting env uploaded_file "text" meeting_type w
  /\ disk (snd (process_meeting env uploaded_file file_type meeting_type w))
     = disk w
  /\ recognised (snd (process_meeting env uploaded_file file_type
                        meeting_type w))
     = recognised w.
Proof.
  intros T. split.
  - rewrite !process_meeting_run. unfold bind.
    now rewrite !obtain_skipped_cached by exact T.
  - destruct (process_meeting_files env uploaded_file file_type meeting_type w)
      as [-> ->].
    now rewrite obtain_skipped_cached by exact T.
Qed.

Lemma process_meeting_cached_transcript_witness :
  process_meeting sample_services sample_upload "video" "general"
    transcribed_world
  = process_meeting sample_services sample_upload "text" "general"
      transcribed_world
  /\ disk (snd (process_meeting sample_services sample_upload "video"
                  "general" transcribed_world))
     = disk transcribed_world
  /\ recognised (snd (process_meeting sample_services sample_upload "video"
                        "general" transcribed_world))
     = recognised transcribed_world.
Proof.
  apply (process_meeting_cached_transcript sample_services sample_upload
           "video" "general" transcribed_world).
  reflexivity.
Defined.









(** X26.  With a transcript in the session and a model that answers both
    requests, the prompts sent are those of the summarizer and the
    outcome of [process_meeting] depends on the texts alone.  When the time
    stamp, the summary, the action items and the transcript are all XML
    compatible the run completes: the session holds the summary and the
    action items of the model, the document assembled from them and the
    transcript, and the completion flag.  Otherwise the summary and the
    action items of the model are stored, and the document and the
    completion flag stay what they were. *)
Theorem process_meeting_outcome (env : services) (uploaded_file : file)
    (file_type meeting_type : string) (w : world)
    (summary : str) (action_items : list str) (sent : list str) :
  truthy (st_transcript (state w)) = true ->
  Summarizer.generate_summary_and_actions (cfg env) (gemini env)
    (st_transcript (state w)) meeting_type (prompts w)
  = (Return (summary, action_items), sent) ->
  let after := snd (process_meeting env uploaded_file file_type
                      meeting_type w) in
  prompts after = sent
  /\ state after
     = if assemblable (now_docx env) (st_transcript (state w)) summary
            action_items
       then processed (now_docx env) (state w) summary action_items
       else summarized (state w) summary action_items.
Proof.
  intros T G after. subst after.
  rewrite process_meeting_run. unfold bind.
  rewrite obtain_skipped_cached by exact T.
  destruct (assemblable (now_docx env) (st_transcript (state w)) summary
              action_items) eqn:X.
  - rewrite (summarize_succeeds env meeting_type _ summary action_items sent);
      [split; reflexivity | exact T | exact G | exact X].
  - rewrite (summarize_unassembled env meeting_type _ summary action_items
               sent); [split; reflexivity | exact T | exact G | exact X].
Qed.

Lemma process_meeting_outcome_witness :
  let after := snd (process_meeting sample_services text_upload "text"
                      "general" paged_world) in
  prompts after
  = [py "Summarize: Page one" ++ [12] ++ py "Page two";
     py "Actions: Page one" ++ [12] ++ py "Page two"]
  /\ state after
     = if assemblable (now_docx sample_services)
            (st_transcript (state paged_world)) (py "The team met.")
            [py "- Alice sends the report"; py "- Bob books a room"]
       then processed (now_docx sample_services) (state paged_world)
              (py "The team met.")
              [py "- Alice sends the report"; py "- Bob books a room"]
       else summarized (state paged_world) (py "The team met.")
              [py "- Alice sends the report"; py "- Bob books a room"].
Proof.
  apply (process_meeting_outcome sample_services text_upload "text"
           "general" paged_world); reflexivity.
Defined.

Example process_meeting_completes_example :
  let after := snd (process_meeting sample_services text_upload "text"
                      "general" transcribed_world) in
  state after
  = processed (now_docx sample_services) (state transcribed_world)
      (py "The team met.")
      [py "- Alice sends the report"; py "- Bob books a room"]
  /\ progress_shown (ui after) = [0; 70; 90; 100].
Proof. vm_compute. split; reflexivity. Qed.

(** A transcript with a form feed: the summary is stored, the document is
    not assembled, and the error is shown. *)
Example process_meeting_form_feed :
  let after := snd (process_meeting sample_services text_upload "text"
                      "general" paged_world) in
  st_summary (state after) = py "The team met."
  /\ st_docx_file (state after) = None
  /\ st_processing_complete (state after) = false
  /\ progress_shown (ui after) = [0; 70; 90]
  /\ last (ui after)
     = Some (ShowError ([10060] ++ py " Processing failed: error")).
Proof. vm_compute. repeat split. Qed.

(** ** Progress *)

Lemma progress_shown_app a b :
  progress_shown (a ++ b) = progress_shown a ++ progress_shown b.
Proof. apply flat_map_app. Qed.

Lemma summarize_ui env meeting_type w :
  exists new,
    ui (snd (summarize_and_assemble env meeting_type w)) = ui w ++ new
    /\ In (progress_shown new) [[]; [70]; [70; 90; 100]; [70; 90]].
Proof.
  destruct (truthy (st_transcript (state w))) eqn:T.
  - destruct (Summarizer.generate_summary_and_actions (cfg env) (gemini env)
                (st_transcript (state w)) meeting_type (prompts w))
      as [[[summary action_items]|e] sent] eqn:G.
    + destruct (assemblable (now_docx env) (st_transcript (state w)) summary
                  action_items) eqn:X.
      * rewrite (summarize_succeeds _ _ _ _ _ _ T G X).
        eexists. split; [reflexivity|]. right. right. now left.
      * rewrite (summarize_unassembled _ _ _ _ _ _ T G X).
        eexists. split; [reflexivity|]. right. right. right. now left.
    + rewrite (summarize_fails _ _ _ _ _ T G).
      eexists. split; [reflexivity|]. right. now left.
  - rewrite (summarize_blank _ _ _ T). exists [].
    split; [now rewrite app_nil_r | now left].
Qed.

Lemma obtain_ui env uploaded_file file_type w :
  exists new,
    ui (snd (obtain_transcript env uploaded_file file_type w)) = ui w ++ new
    /\ In (progress_shown new) [[]; [10]; [10; 40]].
Proof.
  destruct ((String.eqb file_type "video" || String.eqb file_type "audio")
            && negb (truthy (st_transcript (state w)))) eqn:C.
  - apply andb_true_iff in C as [K T].
    apply negb_true_iff in T.
    apply orb_true_iff in K as [K|K]; apply String.eqb_eq in K; subst.
    + rewrite obtain_video_run by exact T. cbv zeta.
      destruct (Audio.extract_audio_from_video _ _) as [[paths|e] f].
      * destruct (Transcription.transcribe_audio _ _ _) as [[t|e] s];
          cbn [snd ui]; rewrite <- app_assoc;
          (eexists; split; [reflexivity|]; right; right; now left).
      * cbn [snd ui]. eexists. split; [reflexivity|]. right. now left.
    + rewrite obtain_audio_run by exact T. cbv zeta.
      destruct (tmp_audio env) as [name|e];
        [|cbn [snd ui]; eexists; split; [reflexivity|]; right; now left].
      destruct (read uploaded_file) as [data|e];
        [|cbn [snd ui]; eexists; split; [reflexivity|]; right; now left].
      destruct (Transcription.transcribe_audio _ _ _) as [[t|e] s];
        cbn [snd ui]; rewrite <- app_assoc;
        (eexists; split; [reflexivity|]; right; right; now left).
  - rewrite obtain_skipped by exact C. exists [].
    split; [now rewrite app_nil_r | now left].
Qed.

Ltac sorted_progress :=
  repeat first [ apply SSorted_nil
               | apply SSorted_cons
               | apply List.Forall_nil
               | apply List.Forall_cons; [lia|] ].

(** X27.  The progress a run of [process_meeting] shows starts at 0 and
    never goes back, on every path: through extraction and transcription or
    not, to completion or to an error. *)
Theorem process_meeting_progress (env : services) (uploaded_file : file)
    (file_type meeting_type : string) (w : world) :
  exists new,
    ui (snd (process_meeting env uploaded_file file_type meeting_type w))
    = ui w ++ new
    /\ hd_error (progress_shown new) = Some 0
    /\ StronglySorted N.le (progress_shown new).
Proof.
  rewrite process_meeting_run. unfold bind.
  destruct (obtain_ui env uploaded_file file_type
              (set_ui (ui w ++ [ShowProgress 0]) w)) as (n1 & U1 & P1).
  cbn [ui set_ui] in U1.
  destruct (obtain_transcript env uploaded_file file_type
              (set_ui (ui w ++ [ShowProgress 0]) w)) as [[[]|e] w1];
    cbn [fst snd] in U1.
  - destruct (summarize_ui env meeting_type w1) as (n2 & U2 & P2).
    destruct (summarize_and_assemble env meeting_type w1) as [[[]|e] w2];
      cbn [fst snd ui set_ui] in *; rewrite U2, U1, <- !app_assoc.
    + exists ([ShowProgress 0] ++ n1 ++ n2). split; [reflexivity|].
      rewrite !progress_shown_app. cbn [progress_shown flat_map app].
      split; [reflexivity|].
      destruct P1 as [<-|[<-|[<-|[]]]]; destruct P2 as [<-|[<-|[<-|[<-|[]]]]];
        cbn [app]; sorted_progress.
    + eexists ([ShowProgress 0] ++ n1 ++ n2 ++ _). split; [reflexivity|].
      rewrite !progress_shown_app. cbn [progress_shown flat_map app].
      split; [reflexivity|]. rewrite app_nil_r.
      destruct P1 as [<-|[<-|[<-|[]]]]; destruct P2 as [<-|[<-|[<-|[<-|[]]]]];
        cbn [app]; sorted_progress.
  - cbn [ui set_ui]. rewrite U1, <- !app_assoc.
    eexists ([ShowProgress 0] ++ n1 ++ _). split; [reflexivity|].
    rewrite !progress_shown_app. cbn [progress_shown flat_map app].
    split; [reflexivity|]. rewrite app_nil_r.
    destruct P1 as [<-|[<-|[<-|[]]]]; cbn [app]; sorted_progress.
Qed.

(** ** Uploads *)

Lemma validate_file_size_run f w :
  fst (validate_file_size f Config.MAX_FILE_SIZE_MB w)
  = Return (fits (Some f))
  /\ state (snd (validate_file_size f Config.MAX_FILE_SIZE_MB w)) = state w.
Proof.
  unfold validate_file_size, fits, Config.MAX_FILE_SIZE_MB.
  destruct (100 * 1024 * 1024 <? size f); split; reflexivity.
Qed.

Lemma handle_file_uploads_run (describe : exn -> str)
    (video_file audio_file transcript_file : option file) (w : world) :
  exists w',
    handle_file_uploads describe video_file audio_file transcript_file w
    = (Return (match usable_text transcript_file with
               | Some _ => (transcript_file, Some "text"%string)
               | None =>
                   if fits audio_file then (audio_file, Some "audio"%string)
                   else if fits video_file
                   then (video_file, Some "video"%string)
                   else (None, None)
               end), w')
    /\ state w'
       = match usable_text transcript_file with
         | Some content => with_transcript content (state w)
         | None => state w
         end.
Proof.
  unfold handle_file_uploads.
  unfold bind at 1.
  assert (V : exists w1,
    (match video_file with
     | Some f =>
         ok <- validate_file_size f Config.MAX_FILE_SIZE_MB ;;
         if ok
         then emit (ShowSuccess Config.file_uploaded) ;;
              ret (Some f, Some "video"%string)
         else ret (None, None)
     | None => ret (None, None)
     end) w
    = (Return (if fits video_file then (video_file, Some "video"%string)
               else (None, None)), w1)
    /\ state w1 = state w).
  { destruct video_file as [f|]; [|eexists; split; reflexivity].
    unfold bind at 1.
    destruct (validate_file_size_run f w) as [R S].
    destruct (validate_file_size f Config.MAX_FILE_SIZE_MB w) as [r w1].
    cbn [fst snd] in R, S. subst r.
    destruct (fits (Some f)); eexists; split; try reflexivity; exact S. }
  destruct V as (w1 & -> & S1).
  unfold bind at 1.
  assert (A : exists w2,
    (match audio_file with
     | Some f =>
         ok <- validate_file_size f Config.MAX_FILE_SIZE_MB ;;
         if ok
         then emit (ShowSuccess Config.file_uploaded) ;;
              ret (Some f, Some "audio"%string)
         else ret (if fits video_file then (video_file, Some "video"%string)
                   else (None, None))
     | None => ret (if fits video_file then (video_file, Some "video"%string)
                    else (None, None))
     end) w1
    = (Return (if fits audio_file then (audio_file, Some "audio"%string)
               else if fits video_file then (video_file, Some "video"%string)
               else (None, None)), w2)
    /\ state w2 = state w).
  { destruct audio_file as [f|]; [|eexists; split; [reflexivity|exact S1]].
    unfold bind at 1.
    destruct (validate_file_size_run f w1) as [R S].
    destruct (validate_file_size f Config.MAX_FILE_SIZE_MB w1) as [r w2].
    cbn [fst snd] in R, S. subst r.
    destruct (fits (Some f)); eexists; split; try reflexivity;
      cbn [snd state set_ui]; congruence. }
  destruct A as (w2 & -> & S2).
  destruct transcript_file as [f|];
    [|eexists; split; [reflexivity | exact S2]].
  unfold usable_text, try_except, bind at 1, lift at 1.
  destruct (decoded f) as [text|e].
  - destruct (truthy (strip text)); eexists; (split; [reflexivity|]);
      cbn; unfold with_transcript; now rewrite S2.
  - eexists. split; [reflexivity|]. cbn. exact S2.
Qed.

(** X28.  [handle_file_uploads] never raises and selects by a fixed
    priority: a text upload that decodes to a non-blank text wins and is
    stored, trimmed, as the transcript of the session; otherwise an audio
    file within the size limit is selected; otherwise a video file within
    the limit; otherwise nothing.  A text upload that is blank or cannot be
    decoded leaves the transcript of the session as it was. *)
Theorem handle_file_uploads_selection (describe : exn -> str)
    (video_file audio_file transcript_file : option file) (w : world) :
  let run := handle_file_uploads describe video_file audio_file
               transcript_file w in
  fst run
  = Return (match usable_text transcript_file with
            | Some _ => (transcript_file, Some "text"%string)
            | None =>
                if fits audio_file then (audio_file, Some "audio"%string)
                else if fits video_file then (video_file, Some "video"%string)
                else (None, None)
            end)
  /\ state (snd run)
     = match usable_text transcript_file with
       | Some content => with_transcript content (state w)
       | None => state w
       end.
Proof.
  intros run. subst run.
  destruct (handle_file_uploads_run describe video_file audio_file
              transcript_file w) as (w' & -> & S).
  split; [reflexivity | exact S].
Qed.

Example handle_file_uploads_text_wins :
  let run := handle_file_uploads (fun _ => py "error") (Some sample_upload)
               (Some sample_upload) (Some text_upload) fresh_world in
  fst run = Return (Some text_upload, Some "text"%string)
  /\ st_transcript (state (snd run))
     = py "Alice will send the report by Monday.".
Proof. vm_compute. split; reflexivity. Qed.

Example handle_file_uploads_too_large :
  let big := {| size := 104857601; read := Return [];
                decoded := Return [] |} in
  let limit := {| size := 104857600; read := Return [];
                  decoded := Return [] |} in
  fst (handle_file_uploads (fun _ => py "error") (Some big) None None
         fresh_world) = Return (None, None)
  /\ fst (handle_file_uploads (fun _ => py "error") (Some limit) None None
            fresh_world) = Return (Some limit, Some "video"%string).
Proof. vm_compute. split; reflexivity. Qed.

(** ** The session defaults *)

Import SessionInit.

Lemma fill_defaults_lookup (l : list (string * value)) :
  forall (ss : gmap string value) (k : string),
    fold_left
      (fun ss kv =>
         match ss !! fst kv with
         | Some _ => ss
         | None => <[fst kv := snd kv]> ss
         end) l ss !! k
    = match ss !! k with
      | Some v => Some v
      | None => (list_to_map l : gmap string value) !! k
      end.
Proof.
  induction l as [|[key v] l IH]; intros ss k.
  - cbn [fold_left list_to_map foldr]. rewrite lookup_empty.
    now destruct (ss !! k).
  - cbn [fold_left fst snd]. rewrite IH.
    cbn [list_to_map foldr fst snd uncurry].
    change (foldr (fun '(k0, v0) m => <[k0:=v0]> m) ∅ l)
      with (list_to_map l : gmap string value).
    destruct (decide (key = k)) as [->|Hne].
    + destruct (ss !! k) eqn:E.
      * now rewrite E.
      * now rewrite !lookup_insert_eq.
    + rewrite (lookup_insert_ne (list_to_map l)) by exact Hne.
      destruct (ss !! key); [reflexivity|].
      now rewrite lookup_insert_ne by exact Hne.
Qed.

(** X29.  [init_session_state] keeps every key the session already has
    with its value, gives each missing key of the defaults its default
    value, and changes nothing when it runs again. *)
Theorem init_session_state_fills (ss : gmap string value) :
  (forall k,
     init_session_state ss !! k
     = match ss !! k with
       | Some v => Some v
       | None => (list_to_map defaults : gmap string value) !! k
       end)
  /\ init_session_state (init_session_state ss) = init_session_state ss.
Proof.
  assert (L : forall (m : gmap string value) k,
    init_session_state m !! k
    = match m !! k with
      | Some v => Some v
      | None => (list_to_map defaults : gmap string value) !! k
      end).
  { intros m k. unfold init_session_state. apply fill_defaults_lookup. }
  split; [apply L|].
  apply map_eq. intros k. rewrite (L (init_session_state ss)).
  rewrite (L ss). destruct (ss !! k); [reflexivity|].
  now destruct (list_to_map defaults !! k).
Qed.

Example init_session_state_example :
  let ss : gmap string value := {[ "transcript"%string := VStr (py "kept") ]} in
  init_session_state ss !! "transcript"%string = Some (VStr (py "kept"))
  /\ init_session_state ss !! "action_items"%string = Some (VList [])
  /\ init_session_state ss !! "slack_webhook"%string = None.
Proof. vm_compute. repeat split. Qed.

(** ** Sharing *)

(** [send_to_slack] returns a Boolean and sends at most one request, to the
    URL it was given. *)
Lemma send_to_slack_shape now_header now_footer net summary action_items
    webhook_url sent :
  exists b,
    Slack.send_to_slack now_header now_footer net summary action_items
      webhook_url sent = (Return b, sent)
    \/ exists rq,
         Slack.url rq = webhook_url
         /\ Slack.send_to_slack now_header now_footer net summary
              action_items webhook_url sent = (Return b, sent ++ [rq]).
Proof.
  destruct (negb (truthy webhook_url)
            || negb (startswith webhook_url WEBHOOK_PREFIX)) eqn:G1.
  { exists false. left. now apply send_to_slack_invalid_url. }
  destruct (negb (truthy (strip summary))
            && negb (truthy (strip action_items))) eqn:G2.
  { exists false. left. now apply send_to_slack_no_content. }
  destruct (send_to_slack_posts now_header now_footer net summary action_items
              webhook_url sent G1 G2) as (rq & U & _ & E).
  eexists. right. exists rq. split; [exact U | exact E].
Qed.

Lemma share_run (env : sharing) (w : world) :
  exists w',
    display_download_and_share_options env w = (Return tt, w')
    /\ state w' = state w
    /\ if share_requested env (state w)
       then posted w' = posted w
            \/ exists rq,
                 Some (Slack.url rq) = st_slack_webhook (state w)
                 /\ posted w' = posted w ++ [rq]
       else posted w' = posted w.
Proof.
  unfold display_download_and_share_options, share_requested.
  unfold bind at 1. unfold get at 1.
  destruct (st_processing_complete (state w)); cbn [negb andb];
    [|eexists; repeat split].
  unfold bind at 1. unfold emit at 1. unfold modify at 1.
  unfold bind at 1.
  assert (D : exists w1,
    (match st_docx_file (state w) with
     | Some docx =>
         emit (ShowSubheader ([128190] ++ py " Download")) ;;
         emit (ShowDownload
                 (py "meeting_summary_" ++ now_file env ++ py ".docx") docx)
     | None => ret tt
     end) (set_ui (ui w ++ [ShowMarkdown (py "---")]) w) = (Return tt, w1)
    /\ state w1 = state w /\ posted w1 = posted w).
  { destruct (st_docx_file (state w)); eexists; repeat split. }
  destruct D as (w1 & -> & S1 & P1).
  destruct (st_action_items (state w)) as [|item items]; cbn [is_nil negb andb].
  { eexists. repeat split; assumption. }
  unfold bind at 1. unfold emit at 1. unfold modify at 1.
  destruct (st_slack_webhook (state w)) as [webhook_url|]; cbn [andb].
  2:{ eexists. repeat split; cbn; assumption. }
  unfold bind at 1. unfold emit at 1. unfold modify at 1.
  destruct (clicked env).
  2:{ eexists. repeat split; cbn; assumption. }
  unfold try_except. unfold bind at 1. unfold App.send_to_slack, zoom.
  cbn [posted set_ui].
  destruct (send_to_slack_shape (now_header env) (now_footer env) (net env)
              (st_summary (state w)) (join [LF] (item :: items)) webhook_url
              (posted w1)) as (b & [E | (rq & U & E)]); rewrite E.
  - destruct b; eexists; (split; [reflexivity|]); cbn;
      (split; [assumption|]); now left.
  - destruct b; eexists; (split; [reflexivity|]); cbn;
      (split; [assumption|]);
      right; exists rq; rewrite U, P1; split; reflexivity.
Qed.

(** X30.  [display_download_and_share_options] never raises and never
    changes the session.  It posts to Slack only when processing is
    complete, there is at least one action item, a webhook URL has been
    entered and the button was pressed, and then at most one request, to
    that URL; in particular a result without action items cannot be
    shared. *)
Theorem share_only_on_request (env : sharing) (w : world) :
  let run := display_download_and_share_options env w in
  fst run = Return tt
  /\ state (snd run) = state w
  /\ if share_requested env (state w)
     then posted (snd run) = posted w
          \/ exists rq,
               Some (Slack.url rq) = st_slack_webhook (state w)
               /\ posted (snd run) = posted w ++ [rq]
     else posted (snd run) = posted w.
Proof.
  intros run. subst run.
  destruct (share_run env w) as (w' & -> & S & P).
  split; [reflexivity|]. split; [exact S | exact P].
Qed.

Example share_example :
  let env := {| now_file := py "20240101_100000";
                now_header := py "January 01, 2024 at 10:00 AM";
                now_footer := py "2024-01-01 10:00:00";
                net := fun _ _ => Return {| status_code := 200; text := py "ok" |};
                clicked := true;
                describe_error := fun _ => py "error" |} in
  let s := {| st_transcript := py "t";
              st_summary := py "The team met.";
              st_action_items := [py "- Alice sends the report"];
              st_docx_file := None;
              st_processing_complete := true;
              st_slack_webhook :=
                Some (py "https://hooks.slack.com/services/T0/B0/X0") |} in
  let after := snd (display_download_and_share_options env
                      (set_state s fresh_world)) in
  map Slack.json (posted after)
  = [slack_blocks (py "January 01, 2024 at 10:00 AM")
       (py "2024-01-01 10:00:00") (py "The team met.")
       [[BULLET; SPACE] ++ py "Alice sends the report"]]
  /\ last (ui after) = Some (ShowSuccess Config.slack_sent).
Proof. vm_compute. split; reflexivity. Qed.

Example display_results_incomplete : display_results fresh_session = [].
Proof. reflexivity. Qed.

Example display_results_numbered :
  display_results
    (processed (py "now") (with_transcript (py "t") fresh_session) (py "s")
       [py "- a"; py "- b"])
  = [ ShowMarkdown (py "---");
      ShowSubheader ([128203] ++ py " Meeting Summary");
      ShowMarkdown (py "s");
      ShowSubheader ([9989] ++ py " Action Items");
      ShowMarkdown (py "1. - a");
      ShowMarkdown (py "2. - b");
      ShowExpander ([128221] ++ py " View Full Transcript");
      ShowTextArea (py "t") ].
Proof. vm_compute. reflexivity. Qed.

(** The transcript shown is the transcript itself when it has at most 1000
    code points, and its first 1000 code points followed by three dots
    otherwise. *)
Lemma display_transcript_length (transcript : str) :
  (length (display_transcript transcript) <= 1003)%nat
  /\ take 1000 (display_transcript transcript) = take 1000 transcript.
Proof.
  unfold display_transcript, Config.max_transcript_display.
  destruct (Nat.ltb_spec 1000 (length transcript)) as [L|L].
  - split.
    + rewrite length_app, length_take. change (length (py "...")) with 3%nat.
      lia.
    + rewrite take_app_le by (rewrite length_take; lia).
      rewrite take_take. now rewrite Nat.min_id.
  - split; [lia | reflexivity].
Qed.
